(** * Daily task planner: time arithmetic, validation and the day store

    A shallow embedding of the scheduling logic of the planner component
    (the [DailyTask] React component, in its TypeScript and its JavaScript
    version) together with the properties of its specification.

    Conventions of the embedding.
    - A JavaScript number is [Num z] for an integer [z], or [NaN].  Every
      number the scheduling code computes is an integer (results of
      [parseInt], sums and products of integers, [Math.floor]); integers are
      exact, the range in which IEEE doubles are exact as well.
    - [null] and [undefined] are [None].
    - A string is a sequence of 8-bit code units (Latin-1).
    - The store is a finite map from date keys to task lists.  Date keys are
      own properties of the store object only.
    - React state is one record; an event handler is a function from the
      state of the render it closes over to the state after its updates.
    - The identifier of a new task ([Date.now()] followed by random digits)
      is supplied by the environment as an argument. *)

From Stdlib Require Import ZArith Lia List Bool Ascii String DecimalString.
From Stdlib Require DecimalPos.
From stdpp Require Import base option list strings gmap sorting.

Local Open Scope string_scope.
Local Open Scope Z_scope.

(** ** JavaScript numbers *)

Inductive number : Type :=
| Num (z : Z)
| NaN.

Definition num_add (a b : number) : number :=
  match a, b with
  | Num x, Num y => Num (x + y)
  | _, _ => NaN
  end.

Definition num_mul (a b : number) : number :=
  match a, b with
  | Num x, Num y => Num (x * y)
  | _, _ => NaN
  end.

(** [ToNumber] on the operand of a relational operator: [null] is [0]. *)
Definition operand (o : option number) : number :=
  match o with Some n => n | None => Num 0 end.

(** [a < b]: false as soon as one side is [NaN]. *)
Definition js_lt (a b : option number) : bool :=
  match operand a, operand b with
  | Num x, Num y => x <? y
  | _, _ => false
  end.

(** [a >= b]: false as soon as one side is [NaN]. *)
Definition js_ge (a b : option number) : bool :=
  match operand a, operand b with
  | Num x, Num y => y <=? x
  | _, _ => false
  end.

(** ** JavaScript strings *)

(** White space skipped by [parseInt] and removed by [trim]. *)
Definition is_ws (c : ascii) : bool :=
  let n := nat_of_ascii c in
  ((n =? 9) || (n =? 10) || (n =? 11) || (n =? 12) || (n =? 13)
   || (n =? 32) || (n =? 160))%nat.

Fixpoint trimStart (s : string) : string :=
  match s with
  | String c s' => if is_ws c then trimStart s' else s
  | EmptyString => EmptyString
  end.

(** [trimEnd]: a white-space character is dropped when everything after it
    has been dropped. *)
Fixpoint trimEnd (s : string) : string :=
  match s with
  | String c s' =>
      match trimEnd s' with
      | EmptyString => if is_ws c then EmptyString else String c EmptyString
      | r => String c r
      end
  | EmptyString => EmptyString
  end.

Definition trim (s : string) : string := trimEnd (trimStart s).

(** Truthiness of a string: only the empty string is falsy. *)
Definition truthy (s : string) : bool :=
  match s with EmptyString => false | String _ _ => true end.

(** [s.split(sep)] for a one-character separator; the empty string splits
    into one empty segment. *)
Fixpoint split (sep : ascii) (s : string) : list string :=
  match s with
  | EmptyString => [EmptyString]
  | String c s' =>
      if Ascii.eqb c sep then EmptyString :: split sep s'
      else match split sep s' with
           | h :: t => String c h :: t
           | [] => [String c EmptyString]
           end
  end.

Definition digit_of (c : ascii) : option Z :=
  let n := Z.of_nat (nat_of_ascii c) in
  if (48 <=? n) && (n <=? 57) then Some (n - 48) else None.

(** The value of the longest prefix of decimal digits, [None] when the prefix
    is empty. *)
Fixpoint digits (s : string) (acc : option Z) : option Z :=
  match s with
  | String c s' =>
      match digit_of c with
      | Some d => digits s' (Some (10 * default 0 acc + d))
      | None => acc
      end
  | EmptyString => acc
  end.

(** [parseInt(s, 10)]: leading white space, an optional sign, then the
    longest prefix of digits; [NaN] without a digit. *)
Definition parseInt (s : string) : number :=
  let s1 := trimStart s in
  let '(sign, s2) :=
    match s1 with
    | String "-" r => (-1, r)
    | String "+" r => (1, r)
    | _ => (1, s1)
    end in
  match digits s2 None with
  | Some n => Num (sign * n)
  | None => NaN
  end.

(** [n.toString()] of an integer. *)
Definition toString (z : Z) : string := NilZero.string_of_int (Z.to_int z).

(** [s.padStart(n, fill)] for a one-character [fill]. *)
Definition padStart (n : nat) (fill : ascii) (s : string) : string :=
  string_of_list_ascii (repeat fill (n - String.length s)) +:+ s.

(** ** Helpers *)

(** [x || "0"] where [x] is a segment of the split, [undefined] when the
    segment is missing. *)
Definition or_default (x : option string) (d : string) : string :=
  match x with
  | Some s => if truthy s then s else d
  | None => d
  end.

Definition timeToMinutes (timeStr : string) : option number :=
  if negb (truthy timeStr) then None
  else
    let parts := split ":" timeStr in
    let hh := parts !! 0%nat in
    let mm := parts !! 1%nat in
    Some (num_add (num_mul (parseInt (or_default hh "0")) (Num 60))
                  (parseInt (or_default mm "0"))).

Definition minutesToTime (mins : option number) : string :=
  match mins with
  | None | Some NaN => "--:--"
  | Some (Num m0) =>
      let m := if m0 <? 0 then 0 else m0 in
      let m := if 24 * 60 <? m then 24 * 60 else m in
      let h := padStart 2 "0" (toString (m / 60)) in
      let mm := padStart 2 "0" (toString (Z.rem m 60)) in
      if String.eqb h "24" then "23:59" else h +:+ ":" +:+ mm
  end.


(** ** Data model *)

Record Task : Type := mkTask {
  id : string;
  name : string;
  durationMinutes : Z;
  startTime : string;
  endTime : string;
  done : bool
}.

(** The form waiting behind the bedtime dialog ([PendingForm], when not
    [null]). *)
Record PendingForm : Type := mkForm {
  form_name : string;
  form_durationMinutes : Z;
  form_startTime : string;
  form_endTime : string;
  isEdit : bool;
  editId : option string
}.

(** The state variables of the component.  [durHours] and [durMinutes] hold
    [Number(e.target.value)] of number inputs with the default step, which
    submit integers only. *)
Record State : Type := mkState {
  data : gmap string (list Task);
  currentDate : string;
  st_name : string;
  durHours : Z;
  durMinutes : Z;
  st_startTime : string;
  error : string;
  editTask : option Task;
  pendingForm : option PendingForm;
  bedtimeModalOpen : bool
}.

Definition setError (msg : string) (st : State) : State :=
  mkState (data st) (currentDate st) (st_name st) (durHours st)
          (durMinutes st) (st_startTime st) msg (editTask st)
          (pendingForm st) (bedtimeModalOpen st).

Definition setData (d : gmap string (list Task)) (st : State) : State :=
  mkState d (currentDate st) (st_name st) (durHours st)
          (durMinutes st) (st_startTime st) (error st) (editTask st)
          (pendingForm st) (bedtimeModalOpen st).

(** The messages shown for the validation errors, under the names the
    specification gives them. *)
Definition EmptyName : string := "Give the task a name.".
Definition MissingStartTime : string := "Pick a start time.".
Definition NonPositiveDuration : string := "Duration must be greater than 0.".
Definition OverflowPastMidnight : string :=
  "Task would end past midnight. Pick a shorter duration or earlier start.".
Definition OutOfOrderStart : string :=
  "Start time cannot be earlier than the previous task's end time.".

Definition BEDTIME_MIN : Z := 22 * 60.

(** ** The component *)

Definition tasksForDate (d : gmap string (list Task)) (date : string)
  : list Task :=
  default [] (d !! date).

Definition calcEndTimeFromStart (startStr : string) (durMin : Z)
  : option string :=
  match timeToMinutes startStr with
  | None | Some NaN => None
  | Some (Num startMin) =>
      let endMin := startMin + durMin in
      if 24 * 60 <? endMin then None
      else Some (minutesToTime (Some (Num endMin)))
  end.

(** The object spread of the edit branch: every field of [t] but the four
    overwritten ones. *)
Definition editedTask (form : PendingForm) (t : Task) : Task :=
  mkTask (id t) (trim (form_name form)) (form_durationMinutes form)
         (form_startTime form) (form_endTime form) (done t).

Definition newTask (fresh : string) (form : PendingForm) : Task :=
  mkTask fresh (trim (form_name form)) (form_durationMinutes form)
         (form_startTime form) (form_endTime form) false.

(** [form.isEdit && form.editId]: the identifier when the form is an edit
    and its identifier is truthy. *)
Definition editTarget (form : PendingForm) : option string :=
  if isEdit form then
    match editId form with
    | Some i => if truthy i then Some i else None
    | None => None
    end
  else None.

Definition commitTask (fresh : string) (form : PendingForm) (st : State)
  : State :=
  let lst := tasksForDate (data st) (currentDate st) in
  match editTarget form with
  | Some i =>
      let updated :=
        map (fun t => if String.eqb (id t) i then editedTask form t else t)
            lst in
      mkState (<[currentDate st := updated]> (data st)) (currentDate st)
              "" 0 30 (st_startTime st) (error st) None None false
  | None =>
      mkState (<[currentDate st := (lst ++ [newTask fresh form])%list]> (data st))
              (currentDate st)
              "" 0 30 (form_endTime form) (error st) (editTask st) None false
  end.

(** The form built from the state variables at submission. *)
Definition formOf (st : State) (duration : Z) (endTime : string)
  : PendingForm :=
  mkForm (st_name st) duration (st_startTime st) endTime
         (match editTask st with Some _ => true | None => false end)
         (match editTask st with Some t => Some (id t) | None => None end).

Definition openBedtimeModal (form : PendingForm) (st : State) : State :=
  mkState (data st) (currentDate st) (st_name st) (durHours st)
          (durMinutes st) (st_startTime st) (error st) (editTask st)
          (Some form) true.

Definition addOrUpdateTask (fresh : string) (st : State) : State :=
  let st := setError "" st in
  let duration := durHours st * 60 + durMinutes st in
  if negb (truthy (trim (st_name st))) then setError EmptyName st
  else if negb (truthy (st_startTime st)) then setError MissingStartTime st
  else if duration <=? 0 then setError NonPositiveDuration st
  else
    match calcEndTimeFromStart (st_startTime st) duration with
    | None => setError OverflowPastMidnight st
    | Some endTime =>
        if negb (truthy endTime) then setError OverflowPastMidnight st
        else
          let endMin := Some (default (Num 0) (timeToMinutes endTime)) in
          if js_ge endMin (Some (Num BEDTIME_MIN))
          then openBedtimeModal (formOf st duration endTime) st
          else commitTask fresh (formOf st duration endTime) st
    end.

Definition handleModalConfirm (fresh : string) (st : State) : State :=
  match pendingForm st with
  | Some form => commitTask fresh form st
  | None => st
  end.

Definition handleModalCancel (st : State) : State :=
  mkState (data st) (currentDate st) (st_name st) (durHours st)
          (durMinutes st) (st_startTime st) (error st) (editTask st)
          None false.

(** [d[date]] is [undefined] for an absent date, and reading [map] or
    [filter] of it throws a [TypeError]: [None]. *)
Definition toggleDone (date i : string) (d : gmap string (list Task))
  : option (gmap string (list Task)) :=
  match d !! date with
  | Some l =>
      Some (<[date :=
               map (fun t =>
                      if String.eqb (id t) i
                      then mkTask (id t) (name t) (durationMinutes t)
                                  (startTime t) (endTime t) (negb (done t))
                      else t) l]> d)
  | None => None
  end.

Definition removeTask (date i : string) (d : gmap string (list Task))
  : option (gmap string (list Task)) :=
  match d !! date with
  | Some l =>
      Some (<[date := List.filter (fun t => negb (String.eqb (id t) i)) l]> d)
  | None => None
  end.

(** [confirmed] is the answer to [window.confirm]. *)
Definition resetDay (confirmed : bool) (date : string)
    (d : gmap string (list Task)) : gmap string (list Task) :=
  if confirmed then <[date := []]> d else d.

Definition startEdit (task : Task) (st : State) : State :=
  mkState (data st) (currentDate st) (name task)
          (durationMinutes task / 60) (Z.rem (durationMinutes task) 60)
          (startTime task) (error st) (Some task)
          (pendingForm st) (bedtimeModalOpen st).

Definition cancelEdit (st : State) : State :=
  mkState (data st) (currentDate st) "" 0 30 "" "" None
          (pendingForm st) (bedtimeModalOpen st).

Definition setStartToPreviousEnd (st : State) : State :=
  let lst := tasksForDate (data st) (currentDate st) in
  let previousEndMinutes :=
    match last lst with
    | Some t => timeToMinutes (endTime t)
    | None => None
    end in
  mkState (data st) (currentDate st) (st_name st) (durHours st)
          (durMinutes st)
          (match previousEndMinutes with
           | None => "00:00"
           | Some n => minutesToTime (Some n)
           end)
          (error st) (editTask st) (pendingForm st) (bedtimeModalOpen st).

(** ** CSV import *)

Definition is_digit (c : ascii) : bool :=
  match digit_of c with Some _ => true | None => false end.

Definition all_digits (s : string) : bool :=
  forallb is_digit (list_ascii_of_string s).

(** [Number(x)] of a field of a row.  Covered: a missing field
    ([undefined], [NaN]), the empty or blank string ([0]), a signed decimal
    integer, and a text that starts no numeric literal ([NaN]: a literal
    starts, after its sign, with a digit, a dot or the [I] of [Infinity]).
    Any other literal (fractions, exponents, other radixes) may denote a
    number that is not an integer: [None], outside the embedding. *)
Definition toNumber (x : option string) : option number :=
  match x with
  | None => Some NaN
  | Some s =>
      let t := trim s in
      let body :=
        match t with
        | String "-" r => r
        | String "+" r => r
        | _ => t
        end in
      let sign := match t with String "-" _ => -1 | _ => 1 end in
      match t, body with
      | EmptyString, _ => Some (Num 0)
      | _, EmptyString => Some NaN
      | _, String c _ =>
          if all_digits body
          then Some (Num (sign * default 0 (digits body None)))
          else if is_digit c || Ascii.eqb c "." || Ascii.eqb c "I"
               then None
               else Some NaN
      end
  end.

(** One iteration of the loop over the lines: the row at index [i]. *)
Definition importRow (fresh : nat -> string) (i : nat) (line : string)
    (out : gmap string (list Task)) : option (gmap string (list Task)) :=
  let fields := split "," line in
  match fields !! 0%nat with
  | Some date =>
      if negb (truthy date) then Some out
      else
        match toNumber (fields !! 4%nat) with
        | None => None
        | Some n =>
            let t :=
              mkTask (fresh i)
                     (or_default (fields !! 1%nat) "Imported")
                     (match n with Num z => z | NaN => 0 end)
                     (or_default (fields !! 2%nat) "00:00")
                     (or_default (fields !! 3%nat) "00:00")
                     (match fields !! 5%nat with
                      | Some doneStr => String.eqb doneStr "1"
                      | None => false
                      end) in
            Some (<[date := (tasksForDate out date ++ [t])%list]> out)
        end
  | None => Some out
  end.

Fixpoint importRows (fresh : nat -> string) (i : nat) (lines : list string)
    (out : gmap string (list Task)) : option (gmap string (list Task)) :=
  match lines with
  | [] => Some out
  | line :: rest =>
      match importRow fresh i line out with
      | Some out' => importRows fresh (S i) rest out'
      | None => None
      end
  end.

(** The [onload] handler of [importCSV] on the text of the file; [fresh i]
    is the identifier made at line index [i].  [None] when a duration field
    is outside the numbers of the embedding. *)
Definition importCSV (fresh : nat -> string) (text : string)
    (d : gmap string (list Task)) : option (gmap string (list Task)) :=
  let lines := List.filter truthy (split "010" text) in
  let startAt :=
    match lines with
    | l0 :: _ => if String.prefix "date," l0 then 1%nat else 0%nat
    | [] => 0%nat
    end in
  importRows fresh startAt (drop startAt lines) d.

(** ** The JavaScript version of the component

    [DailyTask.jsx] shares the helpers, [calcEndTimeFromStart] and the store
    operations with the TypeScript version; it has no bedtime dialog, and its
    [addOrUpdateTask] checks the order of a new task. *)
Module Jsx.

Definition addOrUpdateTask (fresh : string) (st : State) : State :=
  let st := setError "" st in
  let duration := durHours st * 60 + durMinutes st in
  if negb (truthy (trim (st_name st))) then setError EmptyName st
  else if negb (truthy (st_startTime st)) then setError MissingStartTime st
  else if duration <=? 0 then setError NonPositiveDuration st
  else
    let startMin := timeToMinutes (st_startTime st) in
    let lst := tasksForDate (data st) (currentDate st) in
    if match editTask st, last lst with
       | None, Some prev => js_lt startMin (timeToMinutes (endTime prev))
       | _, _ => false
       end
    then setError OutOfOrderStart st
    else
      match calcEndTimeFromStart (st_startTime st) duration with
      | None => setError OverflowPastMidnight st
      | Some endTime =>
          if negb (truthy endTime) then setError OverflowPastMidnight st
          else
            match editTask st with
            | Some et =>
                let updated :=
                  map (fun t =>
                         if String.eqb (id t) (id et)
                         then mkTask (id t) (trim (st_name st)) duration
                                     (st_startTime st) endTime (done t)
                         else t) lst in
                mkState (<[currentDate st := updated]> (data st))
                        (currentDate st) "" 0 30 (st_startTime st)
                        (error st) None
                        (pendingForm st) (bedtimeModalOpen st)
            | None =>
                let t := mkTask fresh (trim (st_name st)) duration
                                (st_startTime st) endTime false in
                mkState (<[currentDate st := (lst ++ [t])%list]> (data st))
                        (currentDate st) "" 0 30 endTime
                        (error st) None
                        (pendingForm st) (bedtimeModalOpen st)
            end
      end.

End Jsx.

(** ** Reachable states

    One step is one event of the interface other than the CSV import: an
    edit of a form field, a change of the date, a submission, an answer to
    the bedtime dialog, a toggle, a removal, a reset of a day, the start or
    the cancellation of an edit. *)
Inductive step : State -> State -> Prop :=
| step_setName s st :
    step st (mkState (data st) (currentDate st) s (durHours st)
               (durMinutes st) (st_startTime st) (error st) (editTask st)
               (pendingForm st) (bedtimeModalOpen st))
| step_setDurHours z st :
    step st (mkState (data st) (currentDate st) (st_name st) z
               (durMinutes st) (st_startTime st) (error st) (editTask st)
               (pendingForm st) (bedtimeModalOpen st))
| step_setDurMinutes z st :
    step st (mkState (data st) (currentDate st) (st_name st) (durHours st)
               z (st_startTime st) (error st) (editTask st)
               (pendingForm st) (bedtimeModalOpen st))
| step_setStartTime s st :
    step st (mkState (data st) (currentDate st) (st_name st) (durHours st)
               (durMinutes st) s (error st) (editTask st)
               (pendingForm st) (bedtimeModalOpen st))
| step_setCurrentDate s st :
    step st (mkState (data st) s (st_name st) (durHours st)
               (durMinutes st) (st_startTime st) (error st) (editTask st)
               (pendingForm st) (bedtimeModalOpen st))
| step_setStartToPreviousEnd st : step st (setStartToPreviousEnd st)
| step_addOrUpdateTask fresh st : step st (addOrUpdateTask fresh st)
| step_handleModalConfirm fresh st : step st (handleModalConfirm fresh st)
| step_handleModalCancel st : step st (handleModalCancel st)
| step_toggleDone date i d' st :
    toggleDone date i (data st) = Some d' -> step st (setData d' st)
| step_removeTask date i d' st :
    removeTask date i (data st) = Some d' -> step st (setData d' st)
| step_resetDay confirmed date st :
    step st (setData (resetDay confirmed date (data st)) st)
| step_startEdit t st : step st (startEdit t st)
| step_cancelEdit st : step st (cancelEdit st).




(** The check of the round trip at one minute offset, run over the whole
    day below: the text is not empty and reads back as the offset, the last
    minute standing for the end of the day. *)
Definition roundTripAt (n : nat) : bool :=
  let m := Z.of_nat n in
  let text := minutesToTime (Some (Num m)) in
  truthy text &&
  match timeToMinutes text with
  | Some (Num z) => z =? Z.min m 1439
  | _ => false
  end.

Fixpoint contains (c : ascii) (s : string) : bool :=
  match s with
  | EmptyString => false
  | String c' s' => Ascii.eqb c' c || contains c s'
  end.


(** Projections of a state and of [setError] on it, computed away. *)
Ltac state_fields :=
  cbn [data currentDate st_name durHours durMinutes st_startTime error
       editTask pendingForm bedtimeModalOpen setError] in *.

(** ** The end time for any duration

    [calcEndTimeFromStart] with its duration as a number, [NaN] included (the
    sum of the hours and minutes fields is [NaN] as soon as one of them is).
    [NaN > 24 * 60] is false, so that a [NaN] end goes on to [minutesToTime].
    On an integer duration this is [calcEndTimeFromStart] above. *)
Definition calcEndTimeFromStartNum (startStr : string) (durMin : number)
  : option string :=
  match timeToMinutes startStr with
  | None | Some NaN => None
  | Some (Num startMin) =>
      match num_add (Num startMin) durMin with
      | Num endMin =>
          if 24 * 60 <? endMin then None
          else Some (minutesToTime (Some (Num endMin)))
      | NaN => Some (minutesToTime (Some NaN))
      end
  end.

(** ** Display helpers *)

(** [parts.join(" ")] is [String.concat]; an empty [parts] gives ["0m"]. *)
Definition minutesToReadable (mins : Z) : string :=
  let h := mins / 60 in
  let m := Z.rem mins 60 in
  let parts :=
    ((if h =? 0 then [] else [toString h +:+ "h"]) ++
     (if m =? 0 then [] else [toString m +:+ "m"]))%list in
  match parts with
  | [] => "0m"
  | _ => String.concat " " parts
  end.

(** The test of the pattern [^\d{1,2}:\d{2}$]: one or two digits, a colon,
    two digits, and nothing else. *)
Definition isClockText (s : string) : bool :=
  match list_ascii_of_string s with
  | [a; c; x; y] =>
      is_digit a && Ascii.eqb c ":" && is_digit x && is_digit y
  | [a; b; c; x; y] =>
      is_digit a && is_digit b && Ascii.eqb c ":" && is_digit x && is_digit y
  | _ => false
  end.

(** [Number(hh)] is read with [toNumber]; the hour segment of a text that
    passed the pattern is one or two digits, never outside its numbers (the
    last case is not reached). *)
Definition formatTime12 (timeStr : string) : string :=
  if negb (truthy timeStr) then "--:--"
  else if negb (isClockText timeStr) then timeStr
  else
    let parts := split ":" timeStr in
    let mm := default "" (parts !! 1%nat) in
    match toNumber (parts !! 0%nat) with
    | Some (Num h) =>
        let ampm := if 12 <=? h then "PM" else "AM" in
        let h12 := if Z.rem h 12 =? 0 then 12 else Z.rem h 12 in
        toString h12 +:+ ":" +:+ mm +:+ " " +:+ ampm
    | Some NaN => "NaN:" +:+ mm +:+ " AM"
    | None => timeStr
    end.

(** ** Totals of the current day *)

Definition totalMinutes (st : State) : Z :=
  fold_left (fun s t => s + durationMinutes t)
            (tasksForDate (data st) (currentDate st)) 0.

Definition remainingMinutes (st : State) : Z :=
  Z.max 0 (24 * 60 - totalMinutes st).

(** ** History *)

(** The order of the default [sort]: strings compared code unit by code
    unit. *)
Definition string_le (s1 s2 : string) : Prop := String.leb s1 s2 = true.

#[local] Instance string_le_dec (s1 s2 : string) : Decision (string_le s1 s2).
Proof. unfold string_le. apply _. Defined.

(** [Object.keys(data).sort()].  The keys are distinct, so that the sorted
    sequence does not depend on the order in which the object lists them. *)
Definition sortedKeys (d : gmap string (list Task)) : list string :=
  merge_sort string_le (map fst (map_to_list d)).

(** [Array.from(new Set(all.map(t => t.name))).sort()]: the distinct names of
    all tasks, sorted; a sequence that does not depend on the order in which
    the days are listed either. *)
Definition uniqueNames (d : gmap string (list Task)) : list string :=
  merge_sort string_le
    (remove_dups (map name (concat (map snd (map_to_list d))))).

(** ** CSV export *)

Definition csvRow (date : string) (t : Task) : string :=
  String.concat ","
    [date; name t; startTime t; endTime t; toString (durationMinutes t);
     if done t then "1" else "0"].

Definition csvHeader : string := "date,name,start,end,durationMinutes,done".

(** The text that [exportCSV] hands to the download. *)
Definition exportCSV (d : gmap string (list Task)) : string :=
  String.concat (String "010" "")
    (csvHeader ::
     flat_map (fun date => map (csvRow date) (tasksForDate d date))
              (sortedKeys d)).

(** ** Further notions of the properties *)

(** The states reached from [st0] by the events of [step]. *)
Inductive reachableFrom (st0 : State) : State -> Prop :=
| reachableFrom_refl : reachableFrom st0 st0
| reachableFrom_step st st' :
    reachableFrom st0 st -> step st st' -> reachableFrom st0 st'.

(** A task as the validation makes it: a name and a start that are not
    empty, and the end time computed from the start and the duration. *)
Definition validated (nm : string) (dur : Z) (start finish : string) : Prop :=
  truthy nm = true
  /\ truthy start = true
  /\ calcEndTimeFromStart start dur = Some finish.

Definition validatedTask (t : Task) : Prop :=
  validated (name t) (durationMinutes t) (startTime t) (endTime t).

Definition validatedStore (d : gmap string (list Task)) : Prop :=
  forall date l t, d !! date = Some l -> In t l -> validatedTask t.

Definition validatedState (st : State) : Prop :=
  validatedStore (data st)
  /\ forall form, pendingForm st = Some form ->
       validated (trim (form_name form)) (form_durationMinutes form)
                 (form_startTime form) (form_endTime form).

(** No task of the list starts before the end of the one before it, in the
    sense of the comparison of [Jsx.addOrUpdateTask]. *)
Fixpoint chained (l : list Task) : Prop :=
  match l with
  | a :: (b :: _) as rest =>
      js_lt (timeToMinutes (startTime b)) (timeToMinutes (endTime a)) = false
      /\ chained rest
  | _ => True
  end.

(** Two tasks that differ at most by their identifier. *)
Definition sameButId (t t' : Task) : Prop :=
  name t = name t' /\ durationMinutes t = durationMinutes t'
  /\ startTime t = startTime t' /\ endTime t = endTime t'
  /\ done t = done t'.

(** A text that can be a field of a row: no comma, no line feed, not
    empty. *)
Definition csvField (s : string) : bool :=
  truthy s && negb (contains "," s) && negb (contains "010" s).

(** The conditions under which a task and its date go through a row of the
    file: the date, the name and the two times are fields (not empty, no
    comma, no line feed), and the duration is an integer that a number
    holds exactly (and prints in plain decimal digits). *)
Definition csvTask (date : string) (t : Task) : Prop :=
  csvField date = true /\ csvField (name t) = true
  /\ csvField (startTime t) = true /\ csvField (endTime t) = true
  /\ Z.abs (durationMinutes t) < 2 ^ 53.

(** A reading of the texts of [minutesToReadable], by which two of them are
    told apart: every part counts for its leading integer, times 60 when
    the part ends in [h]. *)
Fixpoint lastChar (s : string) : option ascii :=
  match s with
  | EmptyString => None
  | String c EmptyString => Some c
  | String _ s' => lastChar s'
  end.

Definition readablePart (p : string) : Z :=
  match parseInt p with
  | Num n =>
      match lastChar p with
      | Some c => if Ascii.eqb c "h" then 60 * n else n
      | None => n
      end
  | NaN => 0
  end.

Definition readableMinutes (s : string) : Z :=
  fold_right (fun p acc => readablePart p + acc) 0 (split " " s).

(** The value of a sequence of decimal digits read after the value [acc]. *)
Fixpoint uintValue (u : Decimal.uint) (acc : Z) : Z :=
  match u with
  | Decimal.Nil => acc
  | Decimal.D0 u' => uintValue u' (10 * acc + 0)
  | Decimal.D1 u' => uintValue u' (10 * acc + 1)
  | Decimal.D2 u' => uintValue u' (10 * acc + 2)
  | Decimal.D3 u' => uintValue u' (10 * acc + 3)
  | Decimal.D4 u' => uintValue u' (10 * acc + 4)
  | Decimal.D5 u' => uintValue u' (10 * acc + 5)
  | Decimal.D6 u' => uintValue u' (10 * acc + 6)
  | Decimal.D7 u' => uintValue u' (10 * acc + 7)
  | Decimal.D8 u' => uintValue u' (10 * acc + 8)
  | Decimal.D9 u' => uintValue u' (10 * acc + 9)
  end.

(** The check of one minute offset for the displays of the clock: the text
    of the offset is five characters long, reading it and writing it again
    gives the same text, and its 12-hour form is the hour from 1 to 12, the
    minutes, and AM before noon. *)
Definition clockAt (n : nat) : bool :=
  let m := Z.of_nat n in
  let text := minutesToTime (Some (Num m)) in
  let m' := Z.min m 1439 in
  let h := m' / 60 in
  (String.length text =? 5)%nat
  && String.eqb (minutesToTime (timeToMinutes text)) text
  && String.eqb (formatTime12 text)
       (toString (if Z.rem h 12 =? 0 then 12 else Z.rem h 12) +:+ ":" +:+
        padStart 2 "0" (toString (Z.rem m' 60)) +:+
        (if m' <? 720 then " AM" else " PM")).

(** * Properties *)

(** ** Time conversion *)

Lemma roundTrip_day : forallb roundTripAt (seq 0 1441) = true.
Proof. vm_compute. reflexivity. Qed.

Lemma roundTripAt_range (m : Z) :
  0 <= m <= 1440 -> roundTripAt (Z.to_nat m) = true.
Proof.
  intros Hm. pose proof roundTrip_day as H.
  rewrite forallb_forall in H. apply H.
  apply in_seq. lia.
Qed.

(** The text of a minute offset of the day is never empty and reads back as
    the offset, capped at 23:59. *)
Lemma timeToMinutes_minutesToTime (m : Z) :
  0 <= m <= 1440 ->
  truthy (minutesToTime (Some (Num m))) = true /\
  timeToMinutes (minutesToTime (Some (Num m))) = Some (Num (Z.min m 1439)).
Proof.
  intros Hm. pose proof (roundTripAt_range m Hm) as H.
  unfold roundTripAt in H. rewrite Z2Nat.id in H by lia.
  apply andb_prop in H as [Ht Hr]. split; [exact Ht|].
  destruct (timeToMinutes (minutesToTime (Some (Num m)))) as [[z|]|];
    try discriminate.
  apply Z.eqb_eq in Hr. now subst.
Qed.

(** C5: for every integer minute offset [m] of [[0, 1439]],
    [timeToMinutes(minutesToTime(m))] is [m]. *)
Theorem minutesToTime_round_trip (m : Z) :
  0 <= m <= 1439 ->
  timeToMinutes (minutesToTime (Some (Num m))) = Some (Num m).
Proof.
  intros Hm.
  destruct (timeToMinutes_minutesToTime m) as [_ H]; [lia|].
  rewrite H. f_equal. f_equal. lia.
Qed.

Lemma minutesToTime_round_trip_witness :
  timeToMinutes (minutesToTime (Some (Num 570))) = Some (Num 570).
Proof. apply (minutesToTime_round_trip 570). lia. Defined.

Lemma truthy_true (s : string) : truthy s = true <-> s <> "".
Proof. destruct s; simpl; split; intros; congruence. Qed.

Lemma timeToMinutes_some_truthy (s : string) (n : number) :
  timeToMinutes s = Some n -> truthy s = true.
Proof. destruct s; [discriminate|reflexivity]. Qed.

Lemma split_no_sep (sep : ascii) (s : string) :
  contains sep s = false -> split sep s = [s].
Proof.
  induction s as [|c s IH]; simpl; [reflexivity|].
  intros H. apply orb_false_elim in H as [Hc Hs].
  rewrite Hc, (IH Hs). reflexivity.
Qed.

Lemma split_first (sep : ascii) (h rest : string) :
  contains sep h = false ->
  split sep (h +:+ String sep rest) = h :: split sep rest.
Proof.
  induction h as [|c h IH]; simpl.
  - intros _. rewrite Ascii.eqb_refl. reflexivity.
  - intros H. apply orb_false_elim in H as [Hc Hh].
    rewrite Hc, (IH Hh). reflexivity.
Qed.

Lemma num_add_zero_l (n : number) : num_add (Num 0) n = n.
Proof. destruct n; reflexivity. Qed.

Lemma num_add_zero_r (n : number) :
  num_add (num_mul n (Num 60)) (Num 0) = num_mul n (Num 60).
Proof. destruct n; simpl; [f_equal; lia|reflexivity]. Qed.

(** C6, as the code has it: [timeToMinutes] returns [null] for the empty
    string and for no other string; a text whose hour segment starts no
    decimal integer gives [NaN]; a missing or empty hour or minute segment
    counts as 0, so that [":30"] is 30 and ["12"] is 720. *)
Theorem timeToMinutes_lenient :
  timeToMinutes "" = None
  /\ (forall s, s <> "" -> exists n, timeToMinutes s = Some n)
  /\ (forall hh rest, hh <> "" -> contains ":" hh = false ->
        parseInt hh = NaN ->
        timeToMinutes hh = Some NaN /\
        timeToMinutes (hh +:+ String ":" rest) = Some NaN)
  /\ (forall mm, contains ":" mm = false ->
        timeToMinutes (String ":" mm) =
        Some (parseInt (or_default (Some mm) "0")))
  /\ (forall hh, hh <> "" -> contains ":" hh = false ->
        timeToMinutes hh = Some (num_mul (parseInt hh) (Num 60)) /\
        timeToMinutes (hh +:+ ":") = Some (num_mul (parseInt hh) (Num 60)))
  /\ timeToMinutes ":30" = Some (Num 30)
  /\ timeToMinutes "12" = Some (Num 720).
Proof.
  split; [reflexivity|].
  split.
  { intros s Hs. destruct s as [|c s]; [congruence|].
    unfold timeToMinutes. simpl truthy. simpl negb. cbv iota. eauto. }
  split.
  { intros hh rest Hne Hc Hnan.
    apply truthy_true in Hne.
    assert (Ht : truthy (hh +:+ String ":" rest) = true)
      by (destruct hh; [discriminate|reflexivity]).
    unfold timeToMinutes. rewrite Hne, Ht. simpl negb. cbv iota. cbv zeta.
    rewrite (split_no_sep _ _ Hc), (split_first _ _ _ Hc).
    simpl lookup. unfold or_default at 1 3. rewrite Hne, Hnan.
    split; reflexivity. }
  split.
  { intros mm Hc. unfold timeToMinutes. simpl truthy. simpl negb.
    cbv iota. cbv zeta.
    change (String ":" mm) with ("" +:+ String ":" mm).
    rewrite (split_first ":" "" mm eq_refl), (split_no_sep _ _ Hc).
    simpl lookup. change (or_default (Some "") "0") with "0".
    change (parseInt "0") with (Num 0). simpl num_mul.
    now rewrite num_add_zero_l. }
  split.
  { intros hh Hne Hc. apply truthy_true in Hne.
    assert (Ht : truthy (hh +:+ ":") = true)
      by (destruct hh; [discriminate|reflexivity]).
    unfold timeToMinutes. rewrite Hne, Ht. simpl negb. cbv iota. cbv zeta.
    rewrite (split_no_sep _ _ Hc), (split_first _ _ _ Hc).
    simpl lookup. unfold or_default at 1 3. rewrite Hne.
    change (or_default None "0") with "0".
    change (or_default (Some "") "0") with "0".
    change (parseInt "0") with (Num 0).
    rewrite num_add_zero_r. split; reflexivity. }
  split; reflexivity.
Qed.

Lemma timeToMinutes_lenient_witness :
  (exists n, timeToMinutes "7:5" = Some n)
  /\ timeToMinutes "x" = Some NaN
  /\ timeToMinutes ":45" = Some (parseInt "45")
  /\ timeToMinutes "3" = Some (num_mul (parseInt "3") (Num 60)).
Proof.
  destruct timeToMinutes_lenient as (_ & H1 & H2 & H3 & H4 & _).
  split; [apply (H1 "7:5"); discriminate|].
  split; [apply (H2 "x" ""); [discriminate|reflexivity|reflexivity]|].
  split; [apply (H3 "45"); reflexivity|].
  apply (H4 "3"); [discriminate|reflexivity].
Defined.

(** C6 as stated fails: an invalid, non-empty text gives [NaN], not
    [null]. *)
Lemma timeToMinutes_invalid_not_null :
  timeToMinutes "abc" = Some NaN /\ timeToMinutes "abc" <> None.
Proof. split; [reflexivity|discriminate]. Qed.

(** ** Validation *)

(** Once the three checks of the form fields pass, the outcome of a
    submission is decided by the end time alone. *)
Lemma addOrUpdateTask_checked (fresh : string) (st : State) :
  truthy (trim (st_name st)) = true ->
  truthy (st_startTime st) = true ->
  0 < durHours st * 60 + durMinutes st ->
  addOrUpdateTask fresh st =
  let st0 := setError "" st in
  let duration := durHours st * 60 + durMinutes st in
  match calcEndTimeFromStart (st_startTime st) duration with
  | None => setError OverflowPastMidnight st
  | Some endTime =>
      if negb (truthy endTime) then setError OverflowPastMidnight st
      else if js_ge (Some (default (Num 0) (timeToMinutes endTime)))
                    (Some (Num BEDTIME_MIN))
           then openBedtimeModal (formOf st0 duration endTime) st0
           else commitTask fresh (formOf st0 duration endTime) st0
  end.
Proof.
  intros Hn Hs Hd. unfold addOrUpdateTask. cbv zeta.
  change (st_name (setError "" st)) with (st_name st).
  change (st_startTime (setError "" st)) with (st_startTime st).
  change (durHours (setError "" st)) with (durHours st).
  change (durMinutes (setError "" st)) with (durMinutes st).
  rewrite Hn, Hs. simpl negb. cbv iota.
  destruct (Z.leb_spec (durHours st * 60 + durMinutes st) 0); [lia|].
  reflexivity.
Qed.

Lemma calcEndTimeFromStart_in_day (startStr : string) (s d : Z) :
  timeToMinutes startStr = Some (Num s) ->
  s + d <= 1440 ->
  calcEndTimeFromStart startStr d = Some (minutesToTime (Some (Num (s + d)))).
Proof.
  intros Hs Hd. unfold calcEndTimeFromStart. rewrite Hs.
  change (24 * 60) with 1440.
  destruct (Z.ltb_spec 1440 (s + d)); [lia|reflexivity].
Qed.

Lemma calcEndTimeFromStart_overflow (startStr : string) (s d : Z) :
  timeToMinutes startStr = Some (Num s) ->
  1440 < s + d ->
  calcEndTimeFromStart startStr d = None.
Proof.
  intros Hs Hd. unfold calcEndTimeFromStart. rewrite Hs.
  change (24 * 60) with 1440.
  destruct (Z.ltb_spec 1440 (s + d)); [reflexivity|lia].
Qed.

(** C1, as the code has it: for a named proposal with a start at or after
    00:00, a positive duration and [start + duration <= 1440], the
    submission raises no error (it is committed, or kept for the bedtime
    dialog), and the computed end time reads back as [start + duration]
    when that is below 1440; at exactly 1440 the end time is ["23:59"]. *)
Theorem validateAndComputeEnd_end_time (fresh : string) (st : State) (s : Z) :
  truthy (trim (st_name st)) = true ->
  timeToMinutes (st_startTime st) = Some (Num s) ->
  0 <= s ->
  0 < durHours st * 60 + durMinutes st ->
  s + (durHours st * 60 + durMinutes st) <= 1440 ->
  let d := durHours st * 60 + durMinutes st in
  let st0 := setError "" st in
  exists e,
    calcEndTimeFromStart (st_startTime st) d = Some e
    /\ (s + d < 1440 -> timeToMinutes e = Some (Num (s + d)))
    /\ (s + d = 1440 -> e = "23:59" /\ timeToMinutes e = Some (Num 1439))
    /\ error (addOrUpdateTask fresh st) = ""
    /\ (addOrUpdateTask fresh st = openBedtimeModal (formOf st0 d e) st0
        \/ addOrUpdateTask fresh st = commitTask fresh (formOf st0 d e) st0).
Proof.
  intros Hn Hs Hs0 Hd Hle d st0.
  exists (minutesToTime (Some (Num (s + d)))).
  destruct (timeToMinutes_minutesToTime (s + d)) as [Ht Hr]; [lia|].
  pose proof (calcEndTimeFromStart_in_day _ s d Hs Hle) as Hc.
  pose proof (addOrUpdateTask_checked fresh st Hn
                (timeToMinutes_some_truthy _ _ Hs) Hd) as Ha.
  cbv zeta in Ha. fold d in Ha. rewrite Hc, Ht in Ha. simpl negb in Ha.
  cbv iota in Ha. fold st0 in Ha.
  split; [exact Hc|].
  split; [intros Hlt; rewrite Hr; do 2 f_equal; lia|].
  split.
  { intros He. rewrite Hr, He. split; reflexivity. }
  rewrite Ha.
  destruct (js_ge _ _).
  - split; [reflexivity|left; reflexivity].
  - split; [|right; reflexivity].
    unfold commitTask. destruct (editTarget _); reflexivity.
Qed.

Lemma validateAndComputeEnd_end_time_witness :
  exists e,
    calcEndTimeFromStart "09:00" 30 = Some e
    /\ (570 < 1440 -> timeToMinutes e = Some (Num 570)).
Proof.
  pose (st := mkState ∅ "2025-01-01" "Read" 0 30 "09:00" "" None None false).
  pose proof (validateAndComputeEnd_end_time "t1" st 540
                eq_refl eq_refl ltac:(lia) ltac:(simpl; lia) ltac:(simpl; lia))
    as H.
  cbv zeta in H. destruct H as (e & Hc & Hlt & _).
  exists e. split; [exact Hc|exact Hlt].
Defined.

(** C1 as stated fails at the end of the day: from 23:00, 60 minutes end at
    1440, and the end time ["23:59"] reads back as 1439. *)
Lemma end_time_at_midnight :
  timeToMinutes "23:00" = Some (Num 1380)
  /\ 1380 + 60 <= 1440
  /\ calcEndTimeFromStart "23:00" 60 = Some "23:59"
  /\ timeToMinutes "23:59" = Some (Num 1439)
  /\ timeToMinutes "23:59" <> Some (Num (1380 + 60)).
Proof.
  split; [reflexivity|]. split; [lia|]. split; [reflexivity|].
  split; [reflexivity|discriminate].
Qed.

(** C3: a proposal whose start plus duration exceeds 1440 is rejected: the
    store, the pending form and the edited task stay as they are and an
    error is shown; for a named proposal of positive duration the error is
    [OverflowPastMidnight]. *)
Theorem overflow_rejected (fresh : string) (st : State) (s : Z) :
  timeToMinutes (st_startTime st) = Some (Num s) ->
  1440 < s + (durHours st * 60 + durMinutes st) ->
  let st' := addOrUpdateTask fresh st in
  data st' = data st
  /\ pendingForm st' = pendingForm st
  /\ editTask st' = editTask st
  /\ error st' <> ""
  /\ (truthy (trim (st_name st)) = true ->
      0 < durHours st * 60 + durMinutes st ->
      st' = setError OverflowPastMidnight st).
Proof.
  intros Hs Hov st'.
  pose proof (calcEndTimeFromStart_overflow _ s _ Hs Hov) as Hc.
  pose proof (timeToMinutes_some_truthy _ _ Hs) as Ht.
  assert (Hcases :
    (truthy (trim (st_name st)) = false /\ st' = setError EmptyName st)
    \/ (durHours st * 60 + durMinutes st <= 0 /\
        st' = setError NonPositiveDuration st)
    \/ st' = setError OverflowPastMidnight st).
  { subst st'. destruct (truthy (trim (st_name st))) eqn:Hn.
    - destruct (Z.leb_spec (durHours st * 60 + durMinutes st) 0) as [Hd|Hd].
      + right; left. split; [exact Hd|]. unfold addOrUpdateTask. cbv zeta.
        change (st_name (setError "" st)) with (st_name st).
        change (st_startTime (setError "" st)) with (st_startTime st).
        change (durHours (setError "" st)) with (durHours st).
        change (durMinutes (setError "" st)) with (durMinutes st).
        rewrite Hn, Ht. simpl negb. cbv iota.
        destruct (Z.leb_spec (durHours st * 60 + durMinutes st) 0); [|lia].
        reflexivity.
      + right; right.
        rewrite (addOrUpdateTask_checked fresh st Hn Ht Hd).
        cbv zeta. rewrite Hc. reflexivity.
    - left. split; [reflexivity|]. unfold addOrUpdateTask. cbv zeta.
      change (st_name (setError "" st)) with (st_name st).
      rewrite Hn. reflexivity. }
  destruct Hcases as [[Hn H]|[[Hd H]|H]]; rewrite H;
    (split; [reflexivity|]); (split; [reflexivity|]);
    (split; [reflexivity|]); (split; [discriminate|]).
  - intros Hn'. congruence.
  - intros _ Hd'. lia.
  - reflexivity.
Qed.

Lemma overflow_rejected_witness :
  addOrUpdateTask "t1"
    (mkState ∅ "2025-01-01" "Late" 0 20 "23:50" "" None None false) =
  setError OverflowPastMidnight
    (mkState ∅ "2025-01-01" "Late" 0 20 "23:50" "" None None false).
Proof.
  pose (st := mkState ∅ "2025-01-01" "Late" 0 20 "23:50" "" None None false).
  pose proof (overflow_rejected "t1" st 1430 eq_refl ltac:(simpl; lia)) as H.
  cbv zeta in H. destruct H as (_ & _ & _ & _ & H).
  apply H; [reflexivity|simpl; lia].
Defined.

(** ** The bedtime dialog *)

(** The store after committing [form] on the current date of [st]. *)
Lemma data_commitTask (fresh : string) (form : PendingForm) (st : State) :
  data (commitTask fresh form st) =
  <[currentDate st :=
      match editTarget form with
      | Some i =>
          map (fun t => if String.eqb (id t) i then editedTask form t else t)
              (tasksForDate (data st) (currentDate st))
      | None =>
          (tasksForDate (data st) (currentDate st) ++ [newTask fresh form])%list
      end]> (data st).
Proof. unfold commitTask. destruct (editTarget form); reflexivity. Qed.

(** C4: an otherwise valid proposal whose end is at or after 22:00 is not
    rejected but kept pending behind the dialog, the store untouched;
    confirming commits exactly the pending form (the current day becomes the
    old list with the new task at its end, or, for an edit, the old list
    with the edited task rewritten in place, every other date as it was);
    cancelling drops the form and leaves the store as it was. *)
Theorem bedtime_gate (fresh fresh' : string) (st : State) (s : Z) :
  truthy (trim (st_name st)) = true ->
  timeToMinutes (st_startTime st) = Some (Num s) ->
  0 < durHours st * 60 + durMinutes st ->
  BEDTIME_MIN <= s + (durHours st * 60 + durMinutes st) <= 1440 ->
  let d := durHours st * 60 + durMinutes st in
  let st1 := addOrUpdateTask fresh st in
  exists e,
    calcEndTimeFromStart (st_startTime st) d = Some e
    /\ data st1 = data st
    /\ error st1 = ""
    /\ pendingForm st1 = Some (formOf st d e)
    /\ bedtimeModalOpen st1 = true
    /\ handleModalConfirm fresh' st1 = commitTask fresh' (formOf st d e) st1
    /\ data (handleModalConfirm fresh' st1) =
       data (commitTask fresh' (formOf st d e) st)
    /\ pendingForm (handleModalConfirm fresh' st1) = None
    /\ data (handleModalCancel st1) = data st
    /\ pendingForm (handleModalCancel st1) = None
    /\ bedtimeModalOpen (handleModalCancel st1) = false
    /\ e = minutesToTime (Some (Num (s + d)))
    /\ data (handleModalConfirm fresh' st1) !! currentDate st =
       Some
         (match editTask st with
          | Some et =>
              if truthy (id et)
              then
                map (fun t =>
                       if String.eqb (id t) (id et)
                       then mkTask (id t) (trim (st_name st)) d
                                   (st_startTime st) e (done t)
                       else t)
                    (tasksForDate (data st) (currentDate st))
              else
                (tasksForDate (data st) (currentDate st) ++
                 [mkTask fresh' (trim (st_name st)) d (st_startTime st) e
                         false])%list
          | None =>
              (tasksForDate (data st) (currentDate st) ++
               [mkTask fresh' (trim (st_name st)) d (st_startTime st) e
                       false])%list
          end)
    /\ (forall date', date' <> currentDate st ->
          data (handleModalConfirm fresh' st1) !! date' = data st !! date')
    /\ bedtimeModalOpen (handleModalConfirm fresh' st1) = false
    /\ error (handleModalConfirm fresh' st1) = "".
Proof.
  intros Hn Hs Hd [Hbed Hle] d st1.
  exists (minutesToTime (Some (Num (s + d)))).
  unfold BEDTIME_MIN in Hbed.
  destruct (timeToMinutes_minutesToTime (s + d)) as [Ht Hr]; [lia|].
  pose proof (calcEndTimeFromStart_in_day _ s d Hs Hle) as Hc.
  assert (Hst1 : st1 =
            openBedtimeModal
              (formOf st d (minutesToTime (Some (Num (s + d)))))
              (setError "" st)).
  { subst st1.
    rewrite (addOrUpdateTask_checked fresh st Hn
               (timeToMinutes_some_truthy _ _ Hs) Hd).
    cbv zeta. fold d. rewrite Hc, Ht, Hr. simpl negb. cbv iota.
    change (js_ge (Some (default (Num 0) (Some (Num (Z.min (s + d) 1439)))))
                  (Some (Num BEDTIME_MIN)))
      with (22 * 60 <=? Z.min (s + d) 1439).
    destruct (Z.leb_spec (22 * 60) (Z.min (s + d) 1439)); [reflexivity|lia]. }
  split; [exact Hc|]. rewrite Hst1.
  repeat (split; [reflexivity|]).
  split.
  { unfold handleModalConfirm. simpl pendingForm.
    rewrite !data_commitTask. reflexivity. }
  split.
  { unfold handleModalConfirm. simpl pendingForm. unfold commitTask.
    destruct (editTarget _); reflexivity. }
  repeat (split; [reflexivity|]).
  unfold handleModalConfirm. simpl pendingForm.
  split.
  { rewrite data_commitTask.
    change (currentDate (openBedtimeModal _ (setError "" st)))
      with (currentDate st).
    change (data (openBedtimeModal _ (setError "" st))) with (data st).
    rewrite lookup_insert_eq. f_equal.
    unfold editTarget, formOf. cbn [isEdit editId].
    destruct (editTask st) as [et|]; [|reflexivity].
    destruct (truthy (id et)); reflexivity. }
  split.
  { intros date' Hne. rewrite data_commitTask.
    change (currentDate (openBedtimeModal _ (setError "" st)))
      with (currentDate st).
    change (data (openBedtimeModal _ (setError "" st))) with (data st).
    apply lookup_insert_ne. congruence. }
  unfold commitTask. destruct (editTarget _); split; reflexivity.
Qed.

Lemma bedtime_gate_witness :
  data (handleModalConfirm "t2"
          (addOrUpdateTask "t1"
             (mkState {[ "2025-01-01" :=
                           [mkTask "t0" "Read" 30 "09:00" "09:30" false] ]}
                      "2025-01-01" "Film" 0 45 "21:30" "" None None false)))
    !! "2025-01-01"
  = Some [mkTask "t0" "Read" 30 "09:00" "09:30" false;
          mkTask "t2" "Film" 45 "21:30" "22:15" false].
Proof.
  pose (st := mkState {[ "2025-01-01" :=
                           [mkTask "t0" "Read" 30 "09:00" "09:30" false] ]}
                      "2025-01-01" "Film" 0 45 "21:30" "" None None false).
  pose proof (bedtime_gate "t1" "t2" st 1290 eq_refl eq_refl
                ltac:(simpl; lia)
                ltac:(unfold BEDTIME_MIN; simpl; lia)) as H.
  cbv zeta in H.
  destruct H as (e & _ & _ & _ & _ & _ & _ & _ & _ & _ & _ & _ & He & Hdata
                 & _).
  rewrite He in Hdata. exact Hdata.
Defined.

(** ** Edits *)

Lemma editTarget_edit (form : PendingForm) (i : string) :
  isEdit form = true -> editId form = Some i -> i <> "" ->
  editTarget form = Some i.
Proof.
  intros He Hi Hne. unfold editTarget. rewrite He, Hi.
  apply truthy_true in Hne. now rewrite Hne.
Qed.

Lemma map_edit_lookup (form : PendingForm) (i : string) (l : list Task)
    (k : nat) (t : Task) :
  l !! k = Some t ->
  map (fun t => if String.eqb (id t) i then editedTask form t else t) l !! k
  = Some (if String.eqb (id t) i then editedTask form t else t).
Proof.
  revert k. induction l as [|a l IH]; intros [|k] H; simpl in *;
    try discriminate.
  - now inversion H.
  - now apply IH.
Qed.

(** C9: an edit replaces the name (trimmed), the duration, the start and the
    end of the task with the edited identifier by the values of the form and
    keeps its identifier and its done flag; every other task of the day stays
    as it is, at its place. *)
Theorem commitTask_edit (fresh : string) (form : PendingForm) (st : State)
    (i : string) :
  isEdit form = true -> editId form = Some i -> i <> "" ->
  exists l',
    data (commitTask fresh form st) !! currentDate st = Some l'
    /\ length l' = length (tasksForDate (data st) (currentDate st))
    /\ forall k t,
         tasksForDate (data st) (currentDate st) !! k = Some t ->
         exists t',
           l' !! k = Some t'
           /\ id t' = id t
           /\ done t' = done t
           /\ (id t = i ->
               name t' = trim (form_name form)
               /\ durationMinutes t' = form_durationMinutes form
               /\ startTime t' = form_startTime form
               /\ endTime t' = form_endTime form)
           /\ (id t <> i -> t' = t).
Proof.
  intros He Hi Hne.
  rewrite data_commitTask, (editTarget_edit form i He Hi Hne).
  eexists. split; [apply lookup_insert_eq|].
  split; [apply length_map|].
  intros k t Hk. eexists. split; [apply (map_edit_lookup form i _ k t Hk)|].
  destruct (String.eqb_spec (id t) i) as [Heq|Hneq].
  - split; [reflexivity|]. split; [reflexivity|].
    split; [intros _; repeat split|intros Hc; congruence].
  - split; [reflexivity|]. split; [reflexivity|].
    split; [intros Hc; congruence|reflexivity].
Qed.

Lemma commitTask_edit_witness :
  exists l',
    data (commitTask "t9"
            (mkForm " Walk " 15 "09:30" "09:45" true (Some "t1"))
            (mkState {[ "2025-01-01" :=
                          [mkTask "t1" "Read" 30 "09:00" "09:30" true] ]}
                     "2025-01-01" "" 0 30 "" "" None None false))
      !! "2025-01-01" = Some l'
    /\ length l' = 1%nat.
Proof.
  destruct (commitTask_edit "t9"
              (mkForm " Walk " 15 "09:30" "09:45" true (Some "t1"))
              (mkState {[ "2025-01-01" :=
                            [mkTask "t1" "Read" 30 "09:00" "09:30" true] ]}
                       "2025-01-01" "" 0 30 "" "" None None false)
              "t1" eq_refl eq_refl ltac:(discriminate))
    as (l' & Hl & Hlen & _).
  exists l'. split; [exact Hl|exact Hlen].
Defined.

(** ** The day store *)

Lemma data_addOrUpdateTask (fresh : string) (st : State) :
  data (addOrUpdateTask fresh st) = data st
  \/ exists form,
       data (addOrUpdateTask fresh st) = data (commitTask fresh form st).
Proof.
  unfold addOrUpdateTask. cbv zeta.
  destruct (negb (truthy (trim _))); [left; reflexivity|].
  destruct (negb (truthy (st_startTime _))); [left; reflexivity|].
  destruct (_ <=? 0); [left; reflexivity|].
  destruct (calcEndTimeFromStart _ _) as [e|]; [|left; reflexivity].
  destruct (negb (truthy e)); [left; reflexivity|].
  destruct (js_ge _ _); [left; reflexivity|].
  right. eexists. rewrite !data_commitTask. reflexivity.
Qed.

(** C10: a commit, a submission or a confirmation on the current date, and a
    toggle, a removal or a reset of a date, leave the task list of every
    other date as it was; a toggle and a removal do complete on a date of the
    store. *)
Theorem other_dates_unchanged (date date' : string) :
  date' <> date ->
  (forall fresh form st, currentDate st = date ->
     data (commitTask fresh form st) !! date' = data st !! date')
  /\ (forall fresh st, currentDate st = date ->
        data (addOrUpdateTask fresh st) !! date' = data st !! date')
  /\ (forall fresh st, currentDate st = date ->
        data (handleModalConfirm fresh st) !! date' = data st !! date')
  /\ (forall i (d : gmap string (list Task)),
        is_Some (d !! date) ->
        exists d', toggleDone date i d = Some d' /\ d' !! date' = d !! date')
  /\ (forall i (d : gmap string (list Task)),
        is_Some (d !! date) ->
        exists d', removeTask date i d = Some d' /\ d' !! date' = d !! date')
  /\ (forall confirmed (d : gmap string (list Task)),
        resetDay confirmed date d !! date' = d !! date').
Proof.
  intros Hne.
  assert (Hcommit : forall fresh form st, currentDate st = date ->
            data (commitTask fresh form st) !! date' = data st !! date').
  { intros fresh form st Hd. rewrite data_commitTask, Hd.
    apply lookup_insert_ne. congruence. }
  split; [exact Hcommit|].
  split.
  { intros fresh st Hd.
    destruct (data_addOrUpdateTask fresh st) as [H|[form H]]; rewrite H;
      [reflexivity|now apply Hcommit]. }
  split.
  { intros fresh st Hd. unfold handleModalConfirm.
    destruct (pendingForm st); [now apply Hcommit|reflexivity]. }
  split.
  { intros i d [l Hl]. unfold toggleDone. rewrite Hl. eexists.
    split; [reflexivity|]. apply lookup_insert_ne. congruence. }
  split.
  { intros i d [l Hl]. unfold removeTask. rewrite Hl. eexists.
    split; [reflexivity|]. apply lookup_insert_ne. congruence. }
  intros [|] d; simpl; [|reflexivity]. apply lookup_insert_ne. congruence.
Qed.

Lemma other_dates_unchanged_witness :
  resetDay true "2025-01-01"
    {[ "2025-01-02" := [mkTask "t1" "Read" 30 "09:00" "09:30" false] ]}
    !! "2025-01-02"
  = ({[ "2025-01-02" := [mkTask "t1" "Read" 30 "09:00" "09:30" false] ]}
       : gmap string (list Task)) !! "2025-01-02".
Proof.
  destruct (other_dates_unchanged "2025-01-01" "2025-01-02"
              ltac:(discriminate)) as (_ & _ & _ & _ & _ & H).
  apply H.
Defined.

Lemma filter_all (A : Type) (f : A -> bool) (l : list A) :
  (forall x, In x l -> f x = true) -> List.filter f l = l.
Proof.
  induction l as [|a l IH]; simpl; intros H; [reflexivity|].
  rewrite (H a) by now left. f_equal. apply IH. intros x Hx. apply H.
  now right.
Qed.

(** C8, as the code has it: on a date of the store [removeTask] completes,
    the date's list loses the tasks with the identifier and keeps the others
    in order, and the store is unchanged when no task has the identifier; on
    a date that is not in the store the update throws. *)
Theorem removeTask_spec (date i : string) (d : gmap string (list Task)) :
  (d !! date = None -> removeTask date i d = None)
  /\ (forall l, d !! date = Some l ->
        exists d',
          removeTask date i d = Some d'
          /\ d' !! date =
             Some (List.filter (fun t => negb (String.eqb (id t) i)) l)
          /\ (forall l', d' !! date = Some l' ->
                forall t, In t l' <-> In t l /\ id t <> i)
          /\ (forall date', date' <> date -> d' !! date' = d !! date')
          /\ ((forall t, In t l -> id t <> i) -> d' = d)).
Proof.
  split.
  { intros H. unfold removeTask. now rewrite H. }
  intros l Hl. unfold removeTask. rewrite Hl. eexists.
  split; [reflexivity|].
  split; [apply lookup_insert_eq|].
  split.
  { intros l' Hl' t. rewrite lookup_insert_eq in Hl'. inversion Hl'; subst l'.
    rewrite filter_In. destruct (String.eqb_spec (id t) i); simpl;
      intuition congruence. }
  split.
  { intros date' Hne. apply lookup_insert_ne. congruence. }
  intros Hnone. rewrite filter_all.
  - now apply insert_id.
  - intros t Ht. destruct (String.eqb_spec (id t) i) as [He|_];
      [exfalso; now apply (Hnone t Ht)|reflexivity].
Qed.

Lemma removeTask_spec_witness :
  exists d',
    removeTask "2025-01-01" "t1"
      {[ "2025-01-01" := [mkTask "t1" "Read" 30 "09:00" "09:30" false] ]}
    = Some d'
    /\ d' !! "2025-01-01" = Some [].
Proof.
  destruct (removeTask_spec "2025-01-01" "t1"
              {[ "2025-01-01" :=
                   [mkTask "t1" "Read" 30 "09:00" "09:30" false] ]})
    as [_ H].
  destruct (H [mkTask "t1" "Read" 30 "09:00" "09:30" false] eq_refl)
    as (d' & Hr & Hl & _).
  exists d'. split; [exact Hr|exact Hl].
Defined.

(** C8 as stated fails on a date that is not in the store: the update
    throws instead of leaving the store as it is. *)
Lemma removeTask_absent_date_throws :
  (∅ : gmap string (list Task)) !! "2025-01-01" = None
  /\ removeTask "2025-01-01" "t1" ∅ = None
  /\ removeTask "2025-01-01" "t1" ∅ <> Some ∅.
Proof. split; [reflexivity|]. split; [reflexivity|discriminate]. Qed.

(** ** Positive durations *)













(** ** The order of a new task *)

Lemma minutesToTime_truthy (mins : option number) :
  truthy (minutesToTime mins) = true.
Proof.
  destruct mins as [[m|]|]; try reflexivity.
  unfold minutesToTime. cbv zeta.
  destruct (String.eqb _ _); [reflexivity|].
  destruct (padStart 2 "0" (toString (_ / 60))); reflexivity.
Qed.

(** In the JavaScript version a new task that starts before the end of the
    last task of the day is rejected, and the state keeps its store. *)
Lemma Jsx_out_of_order_rejected (fresh : string) (st : State) (prev : Task)
    (s p : Z) :
  truthy (trim (st_name st)) = true ->
  timeToMinutes (st_startTime st) = Some (Num s) ->
  0 < durHours st * 60 + durMinutes st ->
  editTask st = None ->
  last (tasksForDate (data st) (currentDate st)) = Some prev ->
  timeToMinutes (endTime prev) = Some (Num p) ->
  s < p ->
  Jsx.addOrUpdateTask fresh st = setError OutOfOrderStart st.
Proof.
  intros Hn Hs Hd He Hl Hp Hlt.
  pose proof (timeToMinutes_some_truthy _ _ Hs) as Ht.
  destruct st as [d cur nm dh dm stt err et pf bm]. state_fields.
  unfold Jsx.addOrUpdateTask. cbv zeta. state_fields.
  rewrite Hn, Ht. simpl negb. cbv iota.
  destruct (Z.leb_spec (dh * 60 + dm) 0); [lia|].
  rewrite He, Hl, Hs, Hp. unfold js_lt, operand.
  destruct (Z.ltb_spec s p); [reflexivity|lia].
Qed.

(** In the JavaScript version a new task that starts at or after the end of
    the last task, and ends within the day, is appended. *)
Lemma Jsx_chained_accepted (fresh : string) (st : State) (prev : Task)
    (s p : Z) :
  truthy (trim (st_name st)) = true ->
  timeToMinutes (st_startTime st) = Some (Num s) ->
  0 < durHours st * 60 + durMinutes st ->
  editTask st = None ->
  last (tasksForDate (data st) (currentDate st)) = Some prev ->
  timeToMinutes (endTime prev) = Some (Num p) ->
  p <= s ->
  s + (durHours st * 60 + durMinutes st) <= 1440 ->
  let d := durHours st * 60 + durMinutes st in
  error (Jsx.addOrUpdateTask fresh st) = ""
  /\ data (Jsx.addOrUpdateTask fresh st) =
     <[currentDate st :=
         (tasksForDate (data st) (currentDate st) ++
          [mkTask fresh (trim (st_name st)) d (st_startTime st)
                  (minutesToTime (Some (Num (s + d)))) false])%list]>
       (data st).
Proof.
  intros Hn Hs Hd He Hl Hp Hle Hday d.
  pose proof (timeToMinutes_some_truthy _ _ Hs) as Ht.
  pose proof (calcEndTimeFromStart_in_day _ s d Hs Hday) as Hc.
  pose proof (minutesToTime_truthy (Some (Num (s + d)))) as Hte.
  subst d.
  destruct st as [dd cur nm dh dm stt err et pf bm]. state_fields.
  unfold Jsx.addOrUpdateTask. cbv zeta. state_fields.
  rewrite Hn, Ht. simpl negb. cbv iota.
  destruct (Z.leb_spec (dh * 60 + dm) 0); [lia|].
  rewrite He, Hl, Hs, Hp. unfold js_lt, operand.
  destruct (Z.ltb_spec s p); [lia|].
  rewrite Hc, Hte. simpl negb. cbv iota. split; reflexivity.
Qed.

(** In the JavaScript version an edit is not checked against the end of the
    last task. *)
Lemma Jsx_edit_exempt (fresh : string) (st : State) (et : Task) (s : Z) :
  truthy (trim (st_name st)) = true ->
  timeToMinutes (st_startTime st) = Some (Num s) ->
  0 < durHours st * 60 + durMinutes st ->
  editTask st = Some et ->
  s + (durHours st * 60 + durMinutes st) <= 1440 ->
  let d := durHours st * 60 + durMinutes st in
  error (Jsx.addOrUpdateTask fresh st) = ""
  /\ data (Jsx.addOrUpdateTask fresh st) =
     <[currentDate st :=
         map (fun t =>
                if String.eqb (id t) (id et)
                then mkTask (id t) (trim (st_name st)) d (st_startTime st)
                            (minutesToTime (Some (Num (s + d)))) (done t)
                else t)
             (tasksForDate (data st) (currentDate st))]> (data st).
Proof.
  intros Hn Hs Hd He Hday d.
  pose proof (timeToMinutes_some_truthy _ _ Hs) as Ht.
  pose proof (calcEndTimeFromStart_in_day _ s d Hs Hday) as Hc.
  pose proof (minutesToTime_truthy (Some (Num (s + d)))) as Hte.
  subst d.
  destruct st as [dd cur nm dh dm stt err e0 pf bm]. state_fields.
  unfold Jsx.addOrUpdateTask. cbv zeta. state_fields.
  rewrite Hn, Ht. simpl negb. cbv iota.
  destruct (Z.leb_spec (dh * 60 + dm) 0); [lia|].
  rewrite He, Hc, Hte. simpl negb. cbv iota. split; reflexivity.
Qed.

(** The TypeScript version never shows the order error. *)
Lemma addOrUpdateTask_no_order_check (fresh : string) (st : State) :
  error (addOrUpdateTask fresh st) <> OutOfOrderStart.
Proof.
  unfold addOrUpdateTask. cbv zeta.
  destruct (negb (truthy (trim _))); [discriminate|].
  destruct (negb (truthy (st_startTime _))); [discriminate|].
  destruct (_ <=? 0); [discriminate|].
  destruct (calcEndTimeFromStart _ _) as [e|]; [|discriminate].
  destruct (negb (truthy e)); [discriminate|].
  destruct (js_ge _ _); [discriminate|].
  unfold commitTask. destruct (editTarget _); discriminate.
Qed.

(** C2, at the third task of the scenario of the specification: the day
    holds Read from 09:00 to 09:30 and the new task Nap starts at 09:00.
    The JavaScript version rejects it with [OutOfOrderStart]; the TypeScript
    version has no such check and appends it. *)
Theorem out_of_order_start_appended :
  let read := mkTask "t1" "Read" 30 "09:00" "09:30" false in
  let st := mkState {[ "2025-01-01" := [read] ]} "2025-01-01"
                    "Nap" 0 10 "09:00" "" None None false in
  js_lt (timeToMinutes (st_startTime st)) (timeToMinutes (endTime read))
  = true
  /\ Jsx.addOrUpdateTask "t2" st = setError OutOfOrderStart st
  /\ error (addOrUpdateTask "t2" st) = ""
  /\ data (addOrUpdateTask "t2" st) !! "2025-01-01" =
     Some [read; mkTask "t2" "Nap" 10 "09:00" "09:10" false].
Proof.
  cbv zeta. split; [reflexivity|]. split; [reflexivity|].
  split; reflexivity.
Qed.


(** * Further properties of the code *)

(** ** The clock texts *)

Lemma clock_day : forallb clockAt (seq 0 1441) = true.
Proof. vm_compute. reflexivity. Qed.

Lemma clockAt_range (m : Z) : 0 <= m <= 1440 -> clockAt (Z.to_nat m) = true.
Proof.
  intros Hm. pose proof clock_day as H. rewrite forallb_forall in H.
  apply H. apply in_seq. lia.
Qed.

(** [minutesToTime] sees its argument through the clamp to the day. *)
Lemma minutesToTime_clamp (m : Z) :
  minutesToTime (Some (Num m)) =
  minutesToTime (Some (Num (Z.max 0 (Z.min m 1440)))).
Proof.
  unfold minutesToTime. cbv zeta. change (24 * 60) with 1440.
  set (c := Z.max 0 (Z.min m 1440)).
  assert (Hc : (if 1440 <? (if c <? 0 then 0 else c) then 1440
                else (if c <? 0 then 0 else c)) = c).
  { destruct (Z.ltb_spec c 0); [lia|].
    destruct (Z.ltb_spec 1440 c); lia. }
  assert (Hm : (if 1440 <? (if m <? 0 then 0 else m) then 1440
                else (if m <? 0 then 0 else m)) = c).
  { destruct (Z.ltb_spec m 0).
    - destruct (Z.ltb_spec 1440 0); lia.
    - destruct (Z.ltb_spec 1440 m); lia. }
  rewrite Hc, Hm. reflexivity.
Qed.

Lemma clock_text (m : Z) :
  0 <= m <= 1440 ->
  let text := minutesToTime (Some (Num m)) in
  String.length text = 5%nat
  /\ minutesToTime (timeToMinutes text) = text
  /\ formatTime12 text =
     toString (if Z.rem (Z.min m 1439 / 60) 12 =? 0 then 12
               else Z.rem (Z.min m 1439 / 60) 12) +:+ ":" +:+
     padStart 2 "0" (toString (Z.rem (Z.min m 1439) 60)) +:+
     (if Z.min m 1439 <? 720 then " AM" else " PM").
Proof.
  intros Hm text. pose proof (clockAt_range m Hm) as H.
  unfold clockAt in H. rewrite Z2Nat.id in H by lia. cbv zeta in H.
  apply andb_prop in H as [H H3]. apply andb_prop in H as [H1 H2].
  apply Nat.eqb_eq in H1. apply String.eqb_eq in H2. apply String.eqb_eq in H3.
  split; [exact H1|]. split; [exact H2|exact H3].
Qed.

(** X1: whatever integer it is given, [minutesToTime] writes a text of five
    characters that reads back as the integer clamped to the minutes of the
    day, from 0 to 1439. *)
Theorem minutesToTime_clamps (m : Z) :
  String.length (minutesToTime (Some (Num m))) = 5%nat
  /\ timeToMinutes (minutesToTime (Some (Num m))) =
     Some (Num (Z.max 0 (Z.min m 1439))).
Proof.
  rewrite minutesToTime_clamp.
  assert (Hc : 0 <= Z.max 0 (Z.min m 1440) <= 1440) by lia.
  destruct (clock_text _ Hc) as (Hlen & _ & _).
  destruct (timeToMinutes_minutesToTime _ Hc) as [_ Hr].
  split; [exact Hlen|]. rewrite Hr. do 2 f_equal. lia.
Qed.

(** X2: for an integer duration, an end time computed by
    [calcEndTimeFromStart] is a clock text of the day: five characters that
    read as a minute from 0 to 1439.  For a [NaN] duration the function
    returns the placeholder ["--:--"], which reads as [NaN]. *)
Theorem calcEndTimeFromStart_clock (startStr : string) :
  (forall d,
     calcEndTimeFromStartNum startStr (Num d) =
     calcEndTimeFromStart startStr d)
  /\ (forall durMin e,
        calcEndTimeFromStartNum startStr durMin = Some e ->
        match durMin with
        | Num _ =>
            String.length e = 5%nat
            /\ exists m, 0 <= m <= 1439 /\ timeToMinutes e = Some (Num m)
        | NaN => e = "--:--" /\ timeToMinutes e = Some NaN
        end).
Proof.
  split; [reflexivity|].
  intros durMin e. unfold calcEndTimeFromStartNum.
  destruct (timeToMinutes startStr) as [[s|]|]; try discriminate.
  destruct durMin as [d|]; simpl num_add; cbv iota.
  - destruct (24 * 60 <? s + d); [discriminate|].
    intros H.
    assert (e = minutesToTime (Some (Num (s + d)))) as -> by congruence.
    clear H. rewrite minutesToTime_clamp.
    assert (Hc : 0 <= Z.max 0 (Z.min (s + d) 1440) <= 1440) by lia.
    destruct (clock_text _ Hc) as (Hlen & _ & _).
    destruct (timeToMinutes_minutesToTime _ Hc) as [_ Hr].
    split; [exact Hlen|]. eexists. split; [|exact Hr]. lia.
  - intros H. assert (e = "--:--") as -> by (simpl in H; congruence).
    split; reflexivity.
Qed.

Lemma calcEndTimeFromStart_clock_witness :
  String.length "09:30" = 5%nat
  /\ exists m, 0 <= m <= 1439 /\ timeToMinutes "09:30" = Some (Num m).
Proof.
  exact (proj2 (calcEndTimeFromStart_clock "09:00") (Num 30) "09:30" eq_refl).
Defined.

(** X3: the 12-hour form of the text of a minute of the day is the hour
    from 1 to 12 (12 for midnight and for noon), the two digits of the
    minutes, and AM before 12:00, PM from 12:00 on. *)
Theorem formatTime12_of_minutes (m : Z) :
  0 <= m <= 1439 ->
  let h12 := if Z.rem (m / 60) 12 =? 0 then 12 else Z.rem (m / 60) 12 in
  1 <= h12 <= 12
  /\ formatTime12 (minutesToTime (Some (Num m))) =
     toString h12 +:+ ":" +:+ padStart 2 "0" (toString (Z.rem m 60)) +:+
     (if m <? 720 then " AM" else " PM").
Proof.
  intros Hm h12.
  destruct (clock_text m) as (_ & _ & H); [lia|].
  replace (Z.min m 1439) with m in H by lia.
  split; [|exact H].
  subst h12.
  assert (0 <= m / 60) by (apply Z.div_pos; lia).
  pose proof (Z.rem_bound_pos (m / 60) 12).
  destruct (Z.eqb_spec (Z.rem (m / 60) 12) 0); lia.
Qed.

Lemma formatTime12_of_minutes_witness :
  formatTime12 (minutesToTime (Some (Num 810))) = "1:30 PM".
Proof.
  destruct (formatTime12_of_minutes 810 ltac:(lia)) as [_ H]. exact H.
Defined.

(** X4: on a day whose last task has its end time from the validation,
    [setStartToPreviousEnd] puts exactly that end time into the start field;
    on a day without tasks it puts ["00:00"]. *)
Theorem setStartToPreviousEnd_last (st : State) :
  (last (tasksForDate (data st) (currentDate st)) = None ->
   st_startTime (setStartToPreviousEnd st) = "00:00")
  /\ (forall t,
        last (tasksForDate (data st) (currentDate st)) = Some t ->
        calcEndTimeFromStart (startTime t) (durationMinutes t)
        = Some (endTime t) ->
        st_startTime (setStartToPreviousEnd st) = endTime t).
Proof.
  unfold setStartToPreviousEnd. cbv zeta. simpl st_startTime. split.
  - intros H. rewrite H. reflexivity.
  - intros t Hl Hc. rewrite Hl.
    unfold calcEndTimeFromStart in Hc.
    destruct (timeToMinutes (startTime t)) as [[s|]|]; try discriminate.
    destruct (24 * 60 <? s + durationMinutes t); [discriminate|].
    assert (endTime t = minutesToTime (Some (Num (s + durationMinutes t))))
      as -> by congruence.
    clear Hc. rewrite minutesToTime_clamp.
    assert (Hr : 0 <= Z.max 0 (Z.min (s + durationMinutes t) 1440) <= 1440)
      by lia.
    destruct (clock_text _ Hr) as (_ & Hfix & _). cbv zeta in Hfix.
    destruct (timeToMinutes_minutesToTime _ Hr) as [_ Hback].
    rewrite Hback in Hfix. rewrite Hback. exact Hfix.
Qed.

Lemma setStartToPreviousEnd_last_witness :
  st_startTime
    (setStartToPreviousEnd
       (mkState {[ "2025-01-01" :=
                     [mkTask "t1" "Read" 30 "09:00" "09:30" false] ]}
                "2025-01-01" "" 0 30 "" "" None None false)) = "09:30".
Proof.
  pose (t := mkTask "t1" "Read" 30 "09:00" "09:30" false).
  pose (st := mkState {[ "2025-01-01" := [t] ]}
                      "2025-01-01" "" 0 30 "" "" None None false).
  apply (proj2 (setStartToPreviousEnd_last st) t); reflexivity.
Defined.

(** ** Toggling *)

Lemma lookup_map_some (A B : Type) (f : A -> B) (l : list A) (k : nat)
    (x : A) :
  l !! k = Some x -> map f l !! k = Some (f x).
Proof.
  revert k. induction l as [|a l IH]; intros [|k] H; simpl in *;
    try discriminate.
  - now inversion H.
  - now apply IH.
Qed.

Lemma toggle_twice (i : string) (l : list Task) :
  map (fun t =>
         if String.eqb (id t) i
         then mkTask (id t) (name t) (durationMinutes t)
                     (startTime t) (endTime t) (negb (done t))
         else t)
      (map (fun t =>
              if String.eqb (id t) i
              then mkTask (id t) (name t) (durationMinutes t)
                          (startTime t) (endTime t) (negb (done t))
              else t) l) = l.
Proof.
  induction l as [|t l IH]; simpl; [reflexivity|]. rewrite IH. f_equal.
  destruct (String.eqb (id t) i) eqn:He; simpl; rewrite He; [|reflexivity].
  destruct t as [? ? ? ? ? dn]. simpl. now rewrite negb_involutive.
Qed.

(** X5: toggling the done flag of the same task twice gives back the store
    as it was. *)
Theorem toggleDone_twice (date i : string) (d : gmap string (list Task)) :
  is_Some (d !! date) ->
  exists d1,
    toggleDone date i d = Some d1 /\ toggleDone date i d1 = Some d.
Proof.
  intros [l Hl]. unfold toggleDone at 1. rewrite Hl. eexists.
  split; [reflexivity|]. unfold toggleDone. rewrite lookup_insert_eq.
  rewrite toggle_twice, insert_insert_eq. f_equal. now apply insert_id.
Qed.

Lemma toggleDone_twice_witness :
  exists d1,
    toggleDone "2025-01-01" "t1"
      {[ "2025-01-01" := [mkTask "t1" "Read" 30 "09:00" "09:30" false] ]}
    = Some d1
    /\ toggleDone "2025-01-01" "t1" d1 =
       Some {[ "2025-01-01" := [mkTask "t1" "Read" 30 "09:00" "09:30" false] ]}.
Proof.
  apply (toggleDone_twice "2025-01-01" "t1"). eexists. reflexivity.
Defined.

(** X6: a toggle keeps the length and the order of the day's list, flips
    the done flag of the tasks with the identifier, and changes no other
    field of any task. *)
Theorem toggleDone_flips_done (date i : string) (d : gmap string (list Task))
    (l : list Task) :
  d !! date = Some l ->
  exists d' l',
    toggleDone date i d = Some d'
    /\ d' !! date = Some l'
    /\ length l' = length l
    /\ forall k t, l !! k = Some t ->
         exists t',
           l' !! k = Some t'
           /\ id t' = id t
           /\ name t' = name t
           /\ durationMinutes t' = durationMinutes t
           /\ startTime t' = startTime t
           /\ endTime t' = endTime t
           /\ done t' = (if String.eqb (id t) i then negb (done t)
                         else done t).
Proof.
  intros Hl. unfold toggleDone. rewrite Hl. do 2 eexists.
  split; [reflexivity|]. split; [apply lookup_insert_eq|].
  split; [apply length_map|].
  intros k t Hk. eexists. split.
  - apply lookup_map_some. exact Hk.
  - destruct (String.eqb (id t) i); repeat split.
Qed.

Lemma toggleDone_flips_done_witness :
  exists d' l',
    toggleDone "2025-01-01" "t1"
      {[ "2025-01-01" := [mkTask "t1" "Read" 30 "09:00" "09:30" false] ]}
    = Some d'
    /\ d' !! "2025-01-01" = Some l'
    /\ length l' = 1%nat.
Proof.
  pose (d := ({[ "2025-01-01" :=
                   [mkTask "t1" "Read" 30 "09:00" "09:30" false] ]}
              : gmap string (list Task))).
  destruct (toggleDone_flips_done "2025-01-01" "t1" d
              [mkTask "t1" "Read" 30 "09:00" "09:30" false] eq_refl)
    as (d' & l' & H1 & H2 & H3 & _).
  exists d', l'. split; [exact H1|]. split; [exact H2|exact H3].
Defined.

(** ** Submissions *)

Lemma calcEndTimeFromStart_truthy (startStr : string) (d : Z) (e : string) :
  calcEndTimeFromStart startStr d = Some e -> truthy e = true.
Proof.
  unfold calcEndTimeFromStart.
  destruct (timeToMinutes startStr) as [[s|]|]; try discriminate.
  destruct (24 * 60 <? _); [discriminate|]. intros H.
  assert (e = minutesToTime (Some (Num (s + d)))) as -> by congruence.
  apply minutesToTime_truthy.
Qed.

(** The two outcomes of a submission: one of the four errors, set on the
    state as it was, or the form with its computed end time, pending or
    committed. *)
Lemma addOrUpdateTask_outcome (fresh : string) (st : State) :
  (exists msg,
     In msg [EmptyName; MissingStartTime; NonPositiveDuration;
             OverflowPastMidnight]
     /\ addOrUpdateTask fresh st = setError msg st)
  \/ exists e,
       calcEndTimeFromStart (st_startTime st)
         (durHours st * 60 + durMinutes st) = Some e
       /\ truthy (trim (st_name st)) = true
       /\ truthy (st_startTime st) = true
       /\ 0 < durHours st * 60 + durMinutes st
       /\ addOrUpdateTask fresh st =
          if js_ge (Some (default (Num 0) (timeToMinutes e)))
                   (Some (Num BEDTIME_MIN))
          then openBedtimeModal
                 (formOf st (durHours st * 60 + durMinutes st) e)
                 (setError "" st)
          else commitTask fresh
                 (formOf st (durHours st * 60 + durMinutes st) e)
                 (setError "" st).
Proof.
  destruct (truthy (trim (st_name st))) eqn:Hn.
  2:{ left. exists EmptyName. split; [simpl; tauto|].
      unfold addOrUpdateTask. cbv zeta.
      change (st_name (setError "" st)) with (st_name st).
      now rewrite Hn. }
  destruct (truthy (st_startTime st)) eqn:Hs.
  2:{ left. exists MissingStartTime. split; [simpl; tauto|].
      unfold addOrUpdateTask. cbv zeta.
      change (st_name (setError "" st)) with (st_name st).
      change (st_startTime (setError "" st)) with (st_startTime st).
      now rewrite Hn, Hs. }
  destruct (Z.leb_spec (durHours st * 60 + durMinutes st) 0) as [Hd|Hd].
  { left. exists NonPositiveDuration. split; [simpl; tauto|].
    unfold addOrUpdateTask. cbv zeta.
    change (st_name (setError "" st)) with (st_name st).
    change (st_startTime (setError "" st)) with (st_startTime st).
    change (durHours (setError "" st)) with (durHours st).
    change (durMinutes (setError "" st)) with (durMinutes st).
    rewrite Hn, Hs. simpl negb. cbv iota.
    destruct (Z.leb_spec (durHours st * 60 + durMinutes st) 0); [|lia].
    reflexivity. }
  rewrite (addOrUpdateTask_checked fresh st Hn Hs Hd). cbv zeta.
  destruct (calcEndTimeFromStart _ _) as [e|] eqn:Hc.
  2:{ left. exists OverflowPastMidnight. split; [simpl; tauto|reflexivity]. }
  right. exists e.
  rewrite (calcEndTimeFromStart_truthy _ _ _ Hc). simpl negb. cbv iota.
  split; [reflexivity|]. split; [reflexivity|]. split; [reflexivity|].
  split; [exact Hd|reflexivity].
Qed.

(** X7: a submission that shows an error has changed nothing but the error
    message: the store, the form fields, the edited task and the pending
    form are as before, and the message is one of the four validation
    errors. *)
Theorem addOrUpdateTask_rejected_unchanged (fresh : string) (st : State) :
  error (addOrUpdateTask fresh st) <> "" ->
  addOrUpdateTask fresh st = setError (error (addOrUpdateTask fresh st)) st
  /\ In (error (addOrUpdateTask fresh st))
        [EmptyName; MissingStartTime; NonPositiveDuration;
         OverflowPastMidnight].
Proof.
  intros Herr.
  destruct (addOrUpdateTask_outcome fresh st)
    as [(msg & Hin & H)|(e & _ & _ & _ & _ & H)].
  - rewrite H. simpl error. split; [reflexivity|exact Hin].
  - exfalso. apply Herr. rewrite H.
    destruct (js_ge _ _); [reflexivity|].
    unfold commitTask. destruct (editTarget _); reflexivity.
Qed.

Lemma addOrUpdateTask_rejected_unchanged_witness :
  addOrUpdateTask "t1"
    (mkState ∅ "2025-01-01" "  " 0 30 "09:00" "" None None false)
  = setError EmptyName
      (mkState ∅ "2025-01-01" "  " 0 30 "09:00" "" None None false).
Proof.
  apply (addOrUpdateTask_rejected_unchanged "t1"
           (mkState ∅ "2025-01-01" "  " 0 30 "09:00" "" None None false)).
  discriminate.
Defined.

Lemma js_ge_clock (x : Z) :
  x <= 1440 ->
  js_ge (Some (default (Num 0)
                 (timeToMinutes (minutesToTime (Some (Num x))))))
        (Some (Num BEDTIME_MIN))
  = (22 * 60 <=? x).
Proof.
  intros Hle. rewrite minutesToTime_clamp.
  assert (Hc : 0 <= Z.max 0 (Z.min x 1440) <= 1440) by lia.
  destruct (timeToMinutes_minutesToTime _ Hc) as [_ Hr]. rewrite Hr.
  change (js_ge (Some (default (Num 0)
                   (Some (Num (Z.min (Z.max 0 (Z.min x 1440)) 1439)))))
                (Some (Num BEDTIME_MIN)))
    with (22 * 60 <=? Z.min (Z.max 0 (Z.min x 1440)) 1439).
  destruct (Z.leb_spec (22 * 60) x);
    destruct (Z.leb_spec (22 * 60)
                (Z.min (Z.max 0 (Z.min x 1440)) 1439)); lia.
Qed.

(** What a submission does with a named proposal that ends within the
    day. *)
Lemma addOrUpdateTask_in_day (fresh : string) (st : State) (s : Z) :
  truthy (trim (st_name st)) = true ->
  timeToMinutes (st_startTime st) = Some (Num s) ->
  0 < durHours st * 60 + durMinutes st ->
  s + (durHours st * 60 + durMinutes st) <= 1440 ->
  addOrUpdateTask fresh st =
  let d := durHours st * 60 + durMinutes st in
  let e := minutesToTime (Some (Num (s + d))) in
  if 22 * 60 <=? s + d
  then openBedtimeModal (formOf st d e) (setError "" st)
  else commitTask fresh (formOf st d e) (setError "" st).
Proof.
  intros Hn Hs Hd Hle.
  rewrite (addOrUpdateTask_checked fresh st Hn
             (timeToMinutes_some_truthy _ _ Hs) Hd).
  cbv zeta. rewrite (calcEndTimeFromStart_in_day _ s _ Hs Hle).
  rewrite minutesToTime_truthy. simpl negb. cbv iota.
  rewrite (js_ge_clock _ Hle). reflexivity.
Qed.

(** X8: a valid proposal opens the bedtime dialog exactly when its start
    plus its duration reaches 22:00; below, nothing is left pending and the
    dialog is closed. *)
Theorem bedtime_threshold (fresh : string) (st : State) (s : Z) :
  truthy (trim (st_name st)) = true ->
  timeToMinutes (st_startTime st) = Some (Num s) ->
  0 < durHours st * 60 + durMinutes st ->
  s + (durHours st * 60 + durMinutes st) <= 1440 ->
  (bedtimeModalOpen (addOrUpdateTask fresh st) = true
   <-> BEDTIME_MIN <= s + (durHours st * 60 + durMinutes st))
  /\ (pendingForm (addOrUpdateTask fresh st) = None
      <-> s + (durHours st * 60 + durMinutes st) < BEDTIME_MIN).
Proof.
  intros Hn Hs Hd Hle.
  rewrite (addOrUpdateTask_in_day fresh st s Hn Hs Hd Hle). cbv zeta.
  unfold BEDTIME_MIN.
  destruct (Z.leb_spec (22 * 60) (s + (durHours st * 60 + durMinutes st))).
  - simpl. split; split; intros; try reflexivity; try lia; discriminate.
  - unfold commitTask. destruct (editTarget _); simpl;
      split; split; intros; try reflexivity; try lia; discriminate.
Qed.

Lemma bedtime_threshold_witness :
  pendingForm
    (addOrUpdateTask "t1"
       (mkState ∅ "2025-01-01" "Read" 0 30 "09:00" "" None None false))
  = None <-> 540 + (0 * 60 + 30) < BEDTIME_MIN.
Proof.
  apply (bedtime_threshold "t1"
           (mkState ∅ "2025-01-01" "Read" 0 30 "09:00" "" None None false)
           540 eq_refl eq_refl); simpl; lia.
Defined.

(** X9: a new task (no edit in progress) that is valid and ends before
    22:00 is appended at the end of the current day: the tasks before it are
    as they were, the new task has the fresh identifier, the trimmed name,
    the computed end time and is not done; the start field takes the end
    time of the new task and the other fields return to their defaults. *)
Theorem addOrUpdateTask_appends (fresh : string) (st : State) (s : Z) :
  truthy (trim (st_name st)) = true ->
  timeToMinutes (st_startTime st) = Some (Num s) ->
  0 < durHours st * 60 + durMinutes st ->
  s + (durHours st * 60 + durMinutes st) < BEDTIME_MIN ->
  editTask st = None ->
  let d := durHours st * 60 + durMinutes st in
  let e := minutesToTime (Some (Num (s + d))) in
  let st' := addOrUpdateTask fresh st in
  data st' !! currentDate st =
    Some (tasksForDate (data st) (currentDate st) ++
          [mkTask fresh (trim (st_name st)) d (st_startTime st) e false])%list
  /\ st_startTime st' = e
  /\ st_name st' = "" /\ durHours st' = 0 /\ durMinutes st' = 30
  /\ error st' = "" /\ pendingForm st' = None /\ editTask st' = None
  /\ currentDate st' = currentDate st.
Proof.
  intros Hn Hs Hd Hbed He d e st'. unfold BEDTIME_MIN in Hbed.
  subst st'.
  rewrite (addOrUpdateTask_in_day fresh st s Hn Hs Hd) by lia. cbv zeta.
  fold d. fold e.
  destruct (Z.leb_spec (22 * 60) (s + d)); [subst d; lia|].
  unfold commitTask, editTarget, formOf. simpl editTask. rewrite He.
  cbn [isEdit]. cbv iota. simpl.
  split; [apply lookup_insert_eq|]. repeat split; assumption.
Qed.

Lemma addOrUpdateTask_appends_witness :
  data (addOrUpdateTask "t2"
          (mkState {[ "2025-01-01" :=
                        [mkTask "t1" "Read" 30 "09:00" "09:30" false] ]}
                   "2025-01-01" " Walk " 0 15 "09:30" "" None None false))
    !! "2025-01-01"
  = Some [mkTask "t1" "Read" 30 "09:00" "09:30" false;
          mkTask "t2" "Walk" 15 "09:30" "09:45" false].
Proof.
  pose (st := mkState {[ "2025-01-01" :=
                           [mkTask "t1" "Read" 30 "09:00" "09:30" false] ]}
                      "2025-01-01" " Walk " 0 15 "09:30" "" None None false).
  pose proof (addOrUpdateTask_appends "t2" st 570 eq_refl eq_refl
                ltac:(simpl; lia) ltac:(unfold BEDTIME_MIN; simpl; lia)
                eq_refl) as H.
  cbv zeta in H. exact (proj1 H).
Defined.

(** ** Tasks as the validation makes them *)

Lemma validatedStore_insert (d : gmap string (list Task)) (date : string)
    (l : list Task) :
  validatedStore d ->
  (forall t, In t l -> validatedTask t) ->
  validatedStore (<[date := l]> d).
Proof.
  intros Hp Hl date' l' t Hlook Ht.
  destruct (decide (date = date')) as [->|Hne].
  - rewrite lookup_insert_eq in Hlook. inversion Hlook; subst l'. now apply Hl.
  - rewrite lookup_insert_ne in Hlook by exact Hne.
    exact (Hp date' l' t Hlook Ht).
Qed.

Lemma tasksForDate_validated (d : gmap string (list Task)) (date : string)
    (t : Task) :
  validatedStore d -> In t (tasksForDate d date) -> validatedTask t.
Proof.
  intros Hp Ht. unfold tasksForDate in Ht.
  destruct (d !! date) as [l|] eqn:Hl; simpl in Ht; [|contradiction].
  exact (Hp date l t Hl Ht).
Qed.

Lemma commitTask_validated (fresh : string) (form : PendingForm)
    (st : State) :
  validatedStore (data st) ->
  validated (trim (form_name form)) (form_durationMinutes form)
            (form_startTime form) (form_endTime form) ->
  validatedState (commitTask fresh form st).
Proof.
  intros Hp Hf. split.
  - rewrite data_commitTask. apply validatedStore_insert; [exact Hp|].
    intros t Ht. destruct (editTarget form) as [i|].
    + apply in_map_iff in Ht as (x & Hx & Hin).
      destruct (String.eqb (id x) i); subst t; [exact Hf|].
      exact (tasksForDate_validated _ _ _ Hp Hin).
    + apply in_app_iff in Ht as [Hin|[<-|[]]]; [|exact Hf].
      exact (tasksForDate_validated _ _ _ Hp Hin).
  - unfold commitTask. destruct (editTarget form); simpl; discriminate.
Qed.

Lemma addOrUpdateTask_validated (fresh : string) (st : State) :
  validatedState st -> validatedState (addOrUpdateTask fresh st).
Proof.
  intros [Hp Hf].
  destruct (addOrUpdateTask_outcome fresh st)
    as [(msg & _ & H)|(e & Hc & Hn & Hs & _ & H)]; rewrite H.
  - split; assumption.
  - assert (Hv : validated (trim (st_name st))
                   (durHours st * 60 + durMinutes st) (st_startTime st) e)
      by (repeat split; assumption).
    destruct (js_ge _ _).
    + split; [exact Hp|]. intros form Hform. simpl in Hform.
      inversion Hform; subst form. exact Hv.
    + apply commitTask_validated; [exact Hp|exact Hv].
Qed.

Lemma step_validated (st st' : State) :
  step st st' -> validatedState st -> validatedState st'.
Proof.
  intros Hstep [Hp Hf].
  destruct Hstep; try (split; assumption).
  - now apply addOrUpdateTask_validated.
  - unfold handleModalConfirm. destruct (pendingForm st) as [form|] eqn:Hform.
    + apply commitTask_validated; [exact Hp|now apply Hf].
    + split; [exact Hp|]. intros form Hform'. congruence.
  - split; [exact Hp|]. intros form Hform. discriminate Hform.
  - split; [|exact Hf]. simpl. unfold toggleDone in H.
    destruct (data st !! date) as [l|] eqn:Hl; [|discriminate].
    inversion H; subst d'. apply validatedStore_insert; [exact Hp|].
    intros t Ht. apply in_map_iff in Ht as (x & Hx & Hin).
    pose proof (Hp date l x Hl Hin) as Hv.
    destruct (String.eqb (id x) i); subst t; exact Hv.
  - split; [|exact Hf]. simpl. unfold removeTask in H.
    destruct (data st !! date) as [l|] eqn:Hl; [|discriminate].
    inversion H; subst d'. apply validatedStore_insert; [exact Hp|].
    intros t Ht. apply filter_In in Ht as [Hin _]. exact (Hp date l t Hl Hin).
  - split; [|exact Hf]. simpl. destruct confirmed; simpl; [|exact Hp].
    apply validatedStore_insert; [exact Hp|]. intros t [].
Qed.

Lemma reachableFrom_validated (st0 st : State) :
  validatedState st0 -> reachableFrom st0 st -> validatedState st.
Proof.
  intros H0. induction 1 as [|st st' _ IH Hstep]; [exact H0|].
  exact (step_validated st st' Hstep IH).
Qed.

(** X10: the end time is derived.  From a state whose tasks (and pending
    form) carry the end time computed from their start and duration, every
    state reached through the events of the interface other than the CSV
    import holds only tasks whose [endTime] is
    [calcEndTimeFromStart(startTime, durationMinutes)]. *)
Theorem endTime_derived (st0 st : State) (date : string) (l : list Task)
    (t : Task) :
  validatedState st0 ->
  reachableFrom st0 st ->
  data st !! date = Some l ->
  In t l ->
  calcEndTimeFromStart (startTime t) (durationMinutes t) = Some (endTime t).
Proof.
  intros H0 Hr Hl Ht.
  destruct (reachableFrom_validated st0 st H0 Hr) as [Hp _].
  exact (proj2 (proj2 (Hp date l t Hl Ht))).
Qed.

(** X11: under the same conditions no task has an empty name or an empty
    start time. *)
Theorem name_and_start_not_empty (st0 st : State) (date : string)
    (l : list Task) (t : Task) :
  validatedState st0 ->
  reachableFrom st0 st ->
  data st !! date = Some l ->
  In t l ->
  name t <> "" /\ startTime t <> "".
Proof.
  intros H0 Hr Hl Ht.
  destruct (reachableFrom_validated st0 st H0 Hr) as [Hp _].
  destruct (Hp date l t Hl Ht) as (Hn & Hs & _).
  split; now apply truthy_true.
Qed.

Lemma first_render_validated (date : string) :
  validatedState (mkState ∅ date "" 0 30 "" "" None None false).
Proof.
  split; [intros d l t H; discriminate H|intros form H; discriminate H].
Qed.

Lemma read_task_reachable :
  reachableFrom
    (mkState ∅ "2025-01-01" "" 0 30 "" "" None None false)
    (addOrUpdateTask "t1"
       (mkState ∅ "2025-01-01" "Read" 0 30 "09:00" "" None None false)).
Proof.
  pose (st0 := mkState ∅ "2025-01-01" "" 0 30 "" "" None None false).
  pose (st1 := mkState ∅ "2025-01-01" "Read" 0 30 "" "" None None false).
  apply (reachableFrom_step st0
           (mkState ∅ "2025-01-01" "Read" 0 30 "09:00" "" None None false));
    [|apply step_addOrUpdateTask].
  apply (reachableFrom_step st0 st1);
    [|exact (step_setStartTime "09:00" st1)].
  apply (reachableFrom_step st0 st0);
    [apply reachableFrom_refl|exact (step_setName "Read" st0)].
Defined.

Lemma endTime_derived_witness :
  calcEndTimeFromStart "09:00" 30 = Some "09:30".
Proof.
  exact (endTime_derived _ _ "2025-01-01"
           [mkTask "t1" "Read" 30 "09:00" "09:30" false]
           (mkTask "t1" "Read" 30 "09:00" "09:30" false)
           (first_render_validated "2025-01-01") read_task_reachable
           eq_refl (or_introl eq_refl)).
Defined.

Lemma name_and_start_not_empty_witness :
  "Read" <> "" /\ "09:00" <> "".
Proof.
  exact (name_and_start_not_empty _ _ "2025-01-01"
           [mkTask "t1" "Read" 30 "09:00" "09:30" false]
           (mkTask "t1" "Read" 30 "09:00" "09:30" false)
           (first_render_validated "2025-01-01") read_task_reachable
           eq_refl (or_introl eq_refl)).
Defined.

(** ** Totals *)

Lemma fold_left_sum_acc (l : list Task) (a : Z) :
  fold_left (fun s t => s + durationMinutes t) l a =
  a + fold_left (fun s t => s + durationMinutes t) l 0.
Proof.
  revert a. induction l as [|t l IH]; intros a; simpl; [lia|].
  rewrite (IH (a + durationMinutes t)), (IH (0 + durationMinutes t)). lia.
Qed.

Lemma fold_left_sum_map (f : Task -> Task) (l : list Task) (a : Z) :
  (forall t, durationMinutes (f t) = durationMinutes t) ->
  fold_left (fun s t => s + durationMinutes t) (map f l) a =
  fold_left (fun s t => s + durationMinutes t) l a.
Proof.
  intros Hf. revert a. induction l as [|t l IH]; intros a; simpl;
    [reflexivity|]. now rewrite Hf, IH.
Qed.

(** X12: committing a new task raises the total of the current day by its
    duration; a toggle of a done flag leaves the total as it is, and a
    confirmed reset of the current day brings it to 0 with the whole day
    remaining. *)
Theorem totalMinutes_changes (st : State) :
  (forall fresh form, editTarget form = None ->
     totalMinutes (commitTask fresh form st) =
     totalMinutes st + form_durationMinutes form)
  /\ (forall date i d', toggleDone date i (data st) = Some d' ->
        totalMinutes (setData d' st) = totalMinutes st)
  /\ totalMinutes (setData (resetDay true (currentDate st) (data st)) st) = 0
  /\ remainingMinutes
       (setData (resetDay true (currentDate st) (data st)) st) = 1440.
Proof.
  split.
  { intros fresh form He. unfold totalMinutes.
    rewrite data_commitTask, He.
    assert (Hcur : currentDate (commitTask fresh form st) = currentDate st)
      by (unfold commitTask; rewrite He; reflexivity).
    rewrite Hcur. unfold tasksForDate at 1. rewrite lookup_insert_eq.
    simpl default. rewrite fold_left_app. simpl. reflexivity. }
  split.
  { intros date i d' H. unfold totalMinutes. simpl. unfold toggleDone in H.
    destruct (data st !! date) as [l|] eqn:Hl; [|discriminate].
    inversion H; subst d'. unfold tasksForDate.
    destruct (decide (date = currentDate st)) as [->|Hne].
    - rewrite lookup_insert_eq, Hl. simpl default.
      apply fold_left_sum_map. intros t.
      destruct (String.eqb (id t) i); reflexivity.
    - now rewrite lookup_insert_ne. }
  assert (Ht : totalMinutes
                 (setData (resetDay true (currentDate st) (data st)) st) = 0).
  { unfold totalMinutes, tasksForDate. simpl.
    now rewrite lookup_insert_eq. }
  split; [exact Ht|]. unfold remainingMinutes. rewrite Ht. reflexivity.
Qed.

Lemma totalMinutes_changes_witness :
  totalMinutes
    (commitTask "t2" (mkForm "Walk" 15 "09:30" "09:45" false None)
       (mkState {[ "2025-01-01" :=
                     [mkTask "t1" "Read" 30 "09:00" "09:30" false] ]}
                "2025-01-01" "" 0 30 "" "" None None false))
  = totalMinutes
      (mkState {[ "2025-01-01" :=
                    [mkTask "t1" "Read" 30 "09:00" "09:30" false] ]}
               "2025-01-01" "" 0 30 "" "" None None false) + 15.
Proof.
  apply (proj1 (totalMinutes_changes
                  (mkState {[ "2025-01-01" :=
                                [mkTask "t1" "Read" 30 "09:00" "09:30" false] ]}
                           "2025-01-01" "" 0 30 "" "" None None false))
           "t2" (mkForm "Walk" 15 "09:30" "09:45" false None)).
  reflexivity.
Defined.

(** ** Editing *)

Lemma startEdit_fills_form_aux (t : Task) (st : State) :
  0 <= durationMinutes t ->
  durHours (startEdit t st) * 60 + durMinutes (startEdit t st)
  = durationMinutes t
  /\ st_name (startEdit t st) = name t
  /\ st_startTime (startEdit t st) = startTime t
  /\ editTask (startEdit t st) = Some t
  /\ data (startEdit t st) = data st
  /\ currentDate (startEdit t st) = currentDate st.
Proof.
  intros Hd. simpl. rewrite Z.rem_mod_nonneg by lia.
  pose proof (Z.div_mod (durationMinutes t) 60 ltac:(lia)).
  repeat split; try reflexivity; lia.
Qed.



(** X14: opening a task for edit and submitting the form as it stands
    leaves the task as it was, and every task with another identifier too.
    The task is one the validation made (trimmed name, positive duration,
    derived end time before 22:00) with a non-empty identifier. *)
Theorem edit_without_change (fresh : string) (t : Task) (st : State)
    (s : Z) :
  id t <> "" ->
  truthy (name t) = true ->
  trim (name t) = name t ->
  0 < durationMinutes t ->
  timeToMinutes (startTime t) = Some (Num s) ->
  s + durationMinutes t < BEDTIME_MIN ->
  endTime t = minutesToTime (Some (Num (s + durationMinutes t))) ->
  exists l',
    data (addOrUpdateTask fresh (startEdit t st)) !! currentDate st = Some l'
    /\ length l' = length (tasksForDate (data st) (currentDate st))
    /\ (forall k x,
          tasksForDate (data st) (currentDate st) !! k = Some x ->
          x = t \/ id x <> id t ->
          l' !! k = Some x)
    /\ editTask (addOrUpdateTask fresh (startEdit t st)) = None
    /\ error (addOrUpdateTask fresh (startEdit t st)) = "".
Proof.
  intros Hid Hn Htrim Hd Hs Hbed He. unfold BEDTIME_MIN in Hbed.
  destruct (startEdit_fills_form_aux t st) as (Hdur & Hname & Hstart & Hedit
                                              & Hdata & Hcur); [lia|].
  assert (Hn' : truthy (trim (st_name (startEdit t st))) = true)
    by (rewrite Hname, Htrim; exact Hn).
  assert (Hs' : timeToMinutes (st_startTime (startEdit t st)) = Some (Num s))
    by (rewrite Hstart; exact Hs).
  rewrite (addOrUpdateTask_in_day fresh (startEdit t st) s Hn' Hs')
    by (rewrite Hdur; lia).
  cbv zeta. rewrite Hdur.
  destruct (Z.leb_spec (22 * 60) (s + durationMinutes t)); [lia|].
  rewrite <- He.
  assert (Htarget :
    editTarget (formOf (startEdit t st) (durationMinutes t) (endTime t))
    = Some (id t)).
  { unfold editTarget, formOf. simpl. apply truthy_true in Hid.
    now rewrite Hid. }
  rewrite data_commitTask, Htarget.
  change (currentDate (setError "" (startEdit t st))) with (currentDate st).
  change (data (setError "" (startEdit t st))) with (data st).
  eexists. split; [apply lookup_insert_eq|].
  split; [apply length_map|].
  split.
  { intros k x Hk Hx. rewrite (lookup_map_some _ _ _ _ _ _ Hk). f_equal.
    destruct (String.eqb_spec (id x) (id t)) as [Heq|Hneq].
    - destruct Hx as [->|Hx]; [|congruence].
      unfold editedTask, formOf. simpl. rewrite Htrim.
      destruct t; reflexivity.
    - reflexivity. }
  unfold commitTask. rewrite Htarget. split; reflexivity.
Qed.

Lemma edit_without_change_witness :
  exists l',
    data (addOrUpdateTask "t9"
            (startEdit (mkTask "t1" "Read" 30 "09:00" "09:30" true)
               (mkState {[ "2025-01-01" :=
                             [mkTask "t1" "Read" 30 "09:00" "09:30" true] ]}
                        "2025-01-01" "" 0 30 "" "" None None false)))
      !! "2025-01-01" = Some l'
    /\ length l' = 1%nat.
Proof.
  pose (t := mkTask "t1" "Read" 30 "09:00" "09:30" true).
  pose (st := mkState {[ "2025-01-01" := [t] ]}
                      "2025-01-01" "" 0 30 "" "" None None false).
  destruct (edit_without_change "t9" t st 540 ltac:(discriminate)
              eq_refl eq_refl ltac:(simpl; lia) eq_refl
              ltac:(unfold BEDTIME_MIN; simpl; lia) eq_refl)
    as (l' & Hl & Hlen & _).
  exists l'. split; [exact Hl|exact Hlen].
Defined.

(** ** The order check of the JavaScript version *)

Lemma js_lt_irrefl (x : option number) : js_lt x x = false.
Proof.
  unfold js_lt. destruct (operand x); [apply Z.ltb_irrefl|reflexivity].
Qed.

(** The outcomes of a submission in the JavaScript version: an error set on
    the state as it was (the order error only for a new task that starts
    before the end of the last one), an edit, or a new task appended after
    the order check has passed. *)
Lemma Jsx_addOrUpdateTask_outcome (fresh : string) (st : State) :
  let lst := tasksForDate (data st) (currentDate st) in
  let d := durHours st * 60 + durMinutes st in
  (exists msg,
     In msg [EmptyName; MissingStartTime; NonPositiveDuration;
             OverflowPastMidnight]
     /\ Jsx.addOrUpdateTask fresh st = setError msg st)
  \/ (Jsx.addOrUpdateTask fresh st = setError OutOfOrderStart st
      /\ editTask st = None
      /\ exists prev,
           last lst = Some prev
           /\ js_lt (timeToMinutes (st_startTime st))
                    (timeToMinutes (endTime prev)) = true)
  \/ (exists et, editTask st = Some et
      /\ length (tasksForDate (data (Jsx.addOrUpdateTask fresh st))
                   (currentDate st)) = length lst
      /\ error (Jsx.addOrUpdateTask fresh st) = "")
  \/ (exists e,
        editTask st = None
        /\ calcEndTimeFromStart (st_startTime st) d = Some e
        /\ (forall prev, last lst = Some prev ->
              js_lt (timeToMinutes (st_startTime st))
                    (timeToMinutes (endTime prev)) = false)
        /\ Jsx.addOrUpdateTask fresh st =
           mkState (<[currentDate st :=
                        (lst ++ [mkTask fresh (trim (st_name st)) d
                                        (st_startTime st) e false])%list]>
                      (data st))
                   (currentDate st) "" 0 30 e "" None
                   (pendingForm st) (bedtimeModalOpen st)).
Proof.
  cbv zeta.
  destruct st as [dd cur nm dh dm stt err et pf bm]. state_fields.
  unfold Jsx.addOrUpdateTask. cbv zeta. state_fields.
  destruct (truthy (trim nm)); simpl negb; cbv iota.
  2:{ left. exists EmptyName. split; [simpl; tauto|reflexivity]. }
  destruct (truthy stt); simpl negb; cbv iota.
  2:{ left. exists MissingStartTime. split; [simpl; tauto|reflexivity]. }
  destruct (dh * 60 + dm <=? 0).
  { left. exists NonPositiveDuration. split; [simpl; tauto|reflexivity]. }
  destruct et as [et|].
  - destruct (calcEndTimeFromStart stt (dh * 60 + dm)) as [e|] eqn:Hc.
    2:{ left. exists OverflowPastMidnight. split; [simpl; tauto|reflexivity]. }
    rewrite (calcEndTimeFromStart_truthy _ _ _ Hc). simpl negb. cbv iota.
    right; right; left. exists et. split; [reflexivity|]. state_fields.
    split; [|reflexivity].
    unfold tasksForDate at 1. rewrite lookup_insert_eq. simpl default.
    apply length_map.
  - destruct (last (tasksForDate dd cur)) as [prev|] eqn:Hl.
    + destruct (js_lt (timeToMinutes stt) (timeToMinutes (endTime prev)))
        eqn:Hlt.
      * right; left. split; [reflexivity|]. split; [reflexivity|].
        exists prev. split; [reflexivity|exact Hlt].
      * destruct (calcEndTimeFromStart stt (dh * 60 + dm)) as [e|] eqn:Hc.
        2:{ left. exists OverflowPastMidnight.
            split; [simpl; tauto|reflexivity]. }
        rewrite (calcEndTimeFromStart_truthy _ _ _ Hc). simpl negb. cbv iota.
        right; right; right. exists e. split; [reflexivity|].
        split; [reflexivity|]. split; [|reflexivity].
        intros prev' Hp. inversion Hp; subst prev'. exact Hlt.
    + destruct (calcEndTimeFromStart stt (dh * 60 + dm)) as [e|] eqn:Hc.
      2:{ left. exists OverflowPastMidnight.
          split; [simpl; tauto|reflexivity]. }
      rewrite (calcEndTimeFromStart_truthy _ _ _ Hc). simpl negb. cbv iota.
      right; right; right. exists e. split; [reflexivity|].
      split; [reflexivity|]. split; [|reflexivity].
      intros prev' Hp. discriminate Hp.
Qed.

(** X15: in the JavaScript version, for a new task that is valid and ends
    within the day, on a day whose last task ends at a readable time, the
    order error is shown exactly when the start is before that end; the
    rejected submission changes nothing else, and the accepted one appends
    the task. *)
Theorem Jsx_order_check_exact (fresh : string) (st : State) (prev : Task)
    (s p : Z) :
  truthy (trim (st_name st)) = true ->
  timeToMinutes (st_startTime st) = Some (Num s) ->
  0 < durHours st * 60 + durMinutes st ->
  s + (durHours st * 60 + durMinutes st) <= 1440 ->
  editTask st = None ->
  last (tasksForDate (data st) (currentDate st)) = Some prev ->
  timeToMinutes (endTime prev) = Some (Num p) ->
  (error (Jsx.addOrUpdateTask fresh st) = OutOfOrderStart <-> s < p)
  /\ (s < p -> Jsx.addOrUpdateTask fresh st = setError OutOfOrderStart st)
  /\ (p <= s ->
      data (Jsx.addOrUpdateTask fresh st) !! currentDate st =
      Some (tasksForDate (data st) (currentDate st) ++
            [mkTask fresh (trim (st_name st))
                    (durHours st * 60 + durMinutes st) (st_startTime st)
                    (minutesToTime
                       (Some (Num (s + (durHours st * 60 + durMinutes st)))))
                    false])%list).
Proof.
  intros Hn Hs Hd Hday He Hl Hp.
  destruct (Z.lt_ge_cases s p) as [Hlt|Hge].
  - pose proof (Jsx_out_of_order_rejected fresh st prev s p
                  Hn Hs Hd He Hl Hp Hlt) as H.
    rewrite H. simpl error.
    split; [split; [intros _; exact Hlt|reflexivity]|].
    split; [reflexivity|]. intros Hc. lia.
  - destruct (Jsx_chained_accepted fresh st prev s p
                Hn Hs Hd He Hl Hp Hge Hday) as [Herr Hdata].
    split.
    { split; [intros Hc; rewrite Herr in Hc; discriminate Hc|lia]. }
    split; [intros Hc; lia|].
    intros _. rewrite Hdata. apply lookup_insert_eq.
Qed.

Lemma Jsx_order_check_exact_witness :
  Jsx.addOrUpdateTask "t2"
    (mkState {[ "2025-01-01" :=
                  [mkTask "t1" "Read" 30 "09:00" "09:30" false] ]}
             "2025-01-01" "Nap" 0 10 "09:00" "" None None false)
  = setError OutOfOrderStart
      (mkState {[ "2025-01-01" :=
                    [mkTask "t1" "Read" 30 "09:00" "09:30" false] ]}
               "2025-01-01" "Nap" 0 10 "09:00" "" None None false).
Proof.
  pose (prev := mkTask "t1" "Read" 30 "09:00" "09:30" false).
  pose (st := mkState {[ "2025-01-01" := [prev] ]}
                      "2025-01-01" "Nap" 0 10 "09:00" "" None None false).
  destruct (Jsx_order_check_exact "t2" st prev 540 570 eq_refl eq_refl
              ltac:(simpl; lia) ltac:(simpl; lia) eq_refl eq_refl eq_refl)
    as (_ & H & _).
  apply H. lia.
Defined.

Lemma chained_snoc (l : list Task) (t : Task) :
  chained l ->
  (forall prev, last l = Some prev ->
     js_lt (timeToMinutes (startTime t)) (timeToMinutes (endTime prev))
     = false) ->
  chained (l ++ [t]).
Proof.
  induction l as [|a l IH]; intros Hc Hlast; [exact I|].
  destruct l as [|b l].
  - simpl. split; [|exact I]. apply Hlast. reflexivity.
  - destruct Hc as [Hab Hc]. split; [exact Hab|].
    apply IH; [exact Hc|]. intros prev Hp. apply Hlast. exact Hp.
Qed.

(** X16: in the JavaScript version the submission of a new task (no edit in
    progress) keeps the current day in order: if no task of the day started
    before the end of the task before it, the same holds after the
    submission, whatever its outcome. *)
Theorem Jsx_submission_keeps_order (fresh : string) (st : State) :
  editTask st = None ->
  chained (tasksForDate (data st) (currentDate st)) ->
  chained (tasksForDate (data (Jsx.addOrUpdateTask fresh st))
             (currentDate st)).
Proof.
  intros He Hc.
  destruct (Jsx_addOrUpdateTask_outcome fresh st)
    as [(msg & _ & H)|[(H & _)|[(et & Het & _)|(e & _ & _ & Hord & H)]]].
  - rewrite H. exact Hc.
  - rewrite H. exact Hc.
  - congruence.
  - rewrite H. simpl data. unfold tasksForDate at 1.
    rewrite lookup_insert_eq. simpl default.
    apply chained_snoc; [exact Hc|exact Hord].
Qed.

Lemma Jsx_submission_keeps_order_witness :
  chained
    (tasksForDate
       (data (Jsx.addOrUpdateTask "t2"
                (mkState {[ "2025-01-01" :=
                              [mkTask "t1" "Read" 30 "09:00" "09:30" false] ]}
                         "2025-01-01" "Walk" 0 15 "09:30" "" None None false)))
       "2025-01-01").
Proof.
  apply (Jsx_submission_keeps_order "t2"
           (mkState {[ "2025-01-01" :=
                         [mkTask "t1" "Read" 30 "09:00" "09:30" false] ]}
                    "2025-01-01" "Walk" 0 15 "09:30" "" None None false));
    [reflexivity|exact I].
Defined.

(** X17: chaining in the JavaScript version.  After a new task has been
    accepted, the start field holds the end time of the task that is now
    the last of the day, and the next submission with that start, whatever
    its name and duration, is never refused for its order. *)
Theorem Jsx_chained_start_in_order (fresh fresh' : string) (st : State)
    (nm : string) (dh dm : Z) :
  editTask st = None ->
  error (Jsx.addOrUpdateTask fresh st) = "" ->
  let st1 := Jsx.addOrUpdateTask fresh st in
  (exists t,
     last (tasksForDate (data st1) (currentDate st1)) = Some t
     /\ id t = fresh
     /\ st_startTime st1 = endTime t)
  /\ error (Jsx.addOrUpdateTask fresh'
              (mkState (data st1) (currentDate st1) nm dh dm
                       (st_startTime st1) (error st1) (editTask st1)
                       (pendingForm st1) (bedtimeModalOpen st1)))
     <> OutOfOrderStart.
Proof.
  intros He Herr st1.
  destruct (Jsx_addOrUpdateTask_outcome fresh st)
    as [(msg & Hin & H)|[(H & _)|[(et & Het & _)|(e & _ & _ & _ & H)]]].
  - exfalso. rewrite H in Herr. simpl in Herr, Hin.
    destruct Hin as [<-|[<-|[<-|[<-|[]]]]]; discriminate Herr.
  - exfalso. rewrite H in Herr. discriminate Herr.
  - congruence.
  - assert (Hlast : last (tasksForDate (data st1) (currentDate st1)) =
                    Some (mkTask fresh (trim (st_name st))
                            (durHours st * 60 + durMinutes st)
                            (st_startTime st) e false)).
    { subst st1. rewrite H. simpl. unfold tasksForDate at 1.
      rewrite lookup_insert_eq. simpl default. apply last_snoc. }
    split.
    { eexists. split; [exact Hlast|]. split; [reflexivity|].
      subst st1. rewrite H. reflexivity. }
    set (st2 := mkState _ _ nm dh dm _ _ _ _ _).
    destruct (Jsx_addOrUpdateTask_outcome fresh' st2)
      as [(msg & Hin & H2)|[(H2 & _ & prev & Hp & Hlt)|
          [(et & Het & _ & H2)|(e2 & _ & _ & _ & H2)]]].
    + rewrite H2. simpl in Hin |- *.
      destruct Hin as [<-|[<-|[<-|[<-|[]]]]]; discriminate.
    + exfalso. subst st2. simpl in Hp, Hlt. rewrite Hlast in Hp.
      inversion Hp; subst prev. simpl in Hlt.
      assert (Hst : st_startTime st1 = e) by (subst st1; rewrite H; reflexivity).
      rewrite Hst, js_lt_irrefl in Hlt. discriminate Hlt.
    + rewrite H2. discriminate.
    + rewrite H2. discriminate.
Qed.

Lemma Jsx_chained_start_in_order_witness :
  error
    (Jsx.addOrUpdateTask "t2"
       (mkState
          (data (Jsx.addOrUpdateTask "t1"
                   (mkState ∅ "2025-01-01" "Read" 0 30 "09:00" ""
                            None None false)))
          "2025-01-01" "Walk" 0 15 "09:30" "" None None false))
  <> OutOfOrderStart.
Proof.
  pose (st := mkState ∅ "2025-01-01" "Read" 0 30 "09:00" "" None None false).
  pose proof (Jsx_chained_start_in_order "t1" "t2" st "Walk" 0 15
                eq_refl eq_refl) as H.
  cbv zeta in H. exact (proj2 H).
Defined.

(** ** CSV import *)

Lemma importRow_appends (fresh : nat -> string) (i : nat) (line : string)
    (out out' : gmap string (list Task)) :
  importRow fresh i line out = Some out' ->
  forall date,
    exists extra,
      tasksForDate out' date = (tasksForDate out date ++ extra)%list
      /\ (forall l, out !! date = Some l -> out' !! date = Some (l ++ extra)%list)
      /\ forall t, In t extra -> id t = fresh i.
Proof.
  unfold importRow. intros H date.
  assert (Hsame : out' = out ->
            exists extra,
              tasksForDate out' date = (tasksForDate out date ++ extra)%list
              /\ (forall l, out !! date = Some l ->
                    out' !! date = Some (l ++ extra)%list)
              /\ forall t, In t extra -> id t = fresh i).
  { intros ->. exists []. rewrite app_nil_r. split; [reflexivity|].
    split; [|intros t []]. intros l Hl. now rewrite app_nil_r. }
  destruct (split "," line !! 0%nat) as [dt|]; [|apply Hsame; congruence].
  destruct (negb (truthy dt)); [apply Hsame; congruence|].
  destruct (toNumber _) as [n|]; [|discriminate].
  inversion H; subst out'. clear H Hsame.
  destruct (decide (dt = date)) as [->|Hne].
  - eexists [_]. unfold tasksForDate at 1. rewrite lookup_insert_eq.
    split; [reflexivity|]. split.
    + intros l Hl. unfold tasksForDate. now rewrite Hl.
    + intros t [<-|[]]. reflexivity.
  - exists []. unfold tasksForDate. rewrite lookup_insert_ne by exact Hne.
    rewrite app_nil_r. split; [reflexivity|]. split; [|intros t []].
    intros l Hl. now rewrite app_nil_r.
Qed.

Lemma importRows_appends (fresh : nat -> string) (lines : list string) :
  forall (i : nat) (out out' : gmap string (list Task)),
    importRows fresh i lines out = Some out' ->
    forall date,
      exists extra,
        tasksForDate out' date = (tasksForDate out date ++ extra)%list
        /\ (forall l, out !! date = Some l ->
              out' !! date = Some (l ++ extra)%list)
        /\ forall t, In t extra -> exists k, id t = fresh k.
Proof.
  induction lines as [|line rest IH]; intros i out out' H date; simpl in H.
  - inversion H; subst out'. exists []. rewrite app_nil_r.
    split; [reflexivity|]. split; [|intros t []].
    intros l Hl. now rewrite app_nil_r.
  - destruct (importRow fresh i line out) as [mid|] eqn:Hrow; [|discriminate].
    destruct (importRow_appends _ _ _ _ _ Hrow date) as (e1 & H1 & K1 & I1).
    destruct (IH _ _ _ H date) as (e2 & H2 & K2 & I2).
    exists (e1 ++ e2)%list. rewrite H2, H1, app_assoc.
    split; [reflexivity|]. split.
    + intros l Hl. rewrite (K2 _ (K1 _ Hl)), app_assoc. reflexivity.
    + intros t Ht. apply in_app_iff in Ht as [Ht|Ht];
        [exists i; now apply I1|now apply I2].
Qed.

(** X18: an import only appends.  When [importCSV] completes, every date of
    the store is still there and its list is the list as it was followed by
    the imported tasks, whose identifiers are the ones made during the
    import; no existing task is changed, moved or removed. *)
Theorem importCSV_appends (fresh : nat -> string) (text : string)
    (d d' : gmap string (list Task)) :
  importCSV fresh text d = Some d' ->
  forall date,
    exists extra,
      tasksForDate d' date = (tasksForDate d date ++ extra)%list
      /\ (forall l, d !! date = Some l -> d' !! date = Some (l ++ extra)%list)
      /\ forall t, In t extra -> exists k, id t = fresh k.
Proof.
  unfold importCSV. cbv zeta. intros H date.
  exact (importRows_appends _ _ _ _ _ H date).
Qed.

Lemma importCSV_appends_witness :
  exists extra,
    tasksForDate
      {[ "2025-01-01" :=
           [mkTask "t1" "Read" 30 "09:00" "09:30" false;
            mkTask "i0" "Nap" 10 "10:00" "10:10" true] ]}
      "2025-01-01"
    = (tasksForDate
         {[ "2025-01-01" := [mkTask "t1" "Read" 30 "09:00" "09:30" false] ]}
         "2025-01-01" ++ extra)%list.
Proof.
  pose (d := ({[ "2025-01-01" :=
                   [mkTask "t1" "Read" 30 "09:00" "09:30" false] ]}
              : gmap string (list Task))).
  pose (d' := ({[ "2025-01-01" :=
                    [mkTask "t1" "Read" 30 "09:00" "09:30" false;
                     mkTask "i0" "Nap" 10 "10:00" "10:10" true] ]}
               : gmap string (list Task))).
  destruct (importCSV_appends (fun _ => "i0")
              "2025-01-01,Nap,10:00,10:10,10,1" d d'
              ltac:(vm_compute; reflexivity) "2025-01-01")
    as (extra & H & _).
  exists extra. exact H.
Defined.

(** ** Names for the suggestions *)

Lemma ascii_compare_N (a b : ascii) :
  Ascii.compare a b = N.compare (N_of_ascii a) (N_of_ascii b).
Proof. reflexivity. Qed.

Lemma string_compare_trans (s1 : string) :
  forall s2 s3,
    String.compare s1 s2 <> Gt -> String.compare s2 s3 <> Gt ->
    String.compare s1 s3 <> Gt.
Proof.
  induction s1 as [|a s1 IH]; intros [|b s2] [|c s3]; simpl;
    try congruence.
  rewrite !ascii_compare_N.
  destruct (N.compare_spec (N_of_ascii a) (N_of_ascii b)) as [Hab|Hab|Hab];
    destruct (N.compare_spec (N_of_ascii b) (N_of_ascii c)) as [Hbc|Hbc|Hbc];
    try congruence;
    destruct (N.compare_spec (N_of_ascii a) (N_of_ascii c)) as [Hac|Hac|Hac];
    try congruence; try lia.
  apply IH.
Qed.

Lemma string_le_compare (s1 s2 : string) :
  string_le s1 s2 <-> String.compare s1 s2 <> Gt.
Proof.
  unfold string_le, String.leb.
  destruct (String.compare s1 s2); split; congruence.
Qed.

#[local] Instance string_le_trans : Transitive string_le.
Proof.
  intros s1 s2 s3. rewrite !string_le_compare. apply string_compare_trans.
Qed.

#[local] Instance string_le_total : Total string_le.
Proof. intros s1 s2. apply String.leb_total. Qed.

Lemma In_store_names (d : gmap string (list Task)) (n : string) :
  In n (map name (concat (map snd (map_to_list d))))
  <-> exists date l t, d !! date = Some l /\ In t l /\ name t = n.
Proof.
  rewrite in_map_iff. split.
  - intros (t & Hn & Ht). apply in_concat in Ht as (l & Hl & Ht).
    apply in_map_iff in Hl as ([date l'] & Heq & Hin). simpl in Heq. subst l'.
    apply list_elem_of_In, elem_of_map_to_list in Hin.
    exists date, l, t. auto.
  - intros (date & l & t & Hl & Ht & Hn). exists t. split; [exact Hn|].
    apply in_concat. exists l. split; [|exact Ht].
    apply in_map_iff. exists (date, l). split; [reflexivity|].
    apply list_elem_of_In, elem_of_map_to_list. exact Hl.
Qed.

(** X19: [uniqueNames] lists the names of the tasks of all days, each name
    once, in ascending order: a name is listed exactly when some task of
    some day has it. *)
Theorem uniqueNames_sorted_distinct (d : gmap string (list Task)) :
  StronglySorted string_le (uniqueNames d)
  /\ NoDup (uniqueNames d)
  /\ forall n,
       In n (uniqueNames d)
       <-> exists date l t, d !! date = Some l /\ In t l /\ name t = n.
Proof.
  unfold uniqueNames. split; [apply StronglySorted_merge_sort; apply _|].
  split.
  - rewrite merge_sort_Permutation. apply NoDup_remove_dups.
  - intros n. rewrite <- In_store_names, <- !list_elem_of_In.
    rewrite merge_sort_Permutation. apply elem_of_remove_dups.
Qed.

(** ** Decimal texts *)

Lemma is_digit_not_ws (c : ascii) : is_digit c = true -> is_ws c = false.
Proof.
  destruct c as [[] [] [] [] [] [] [] []]; intros H;
    first [reflexivity|discriminate H].
Qed.

Lemma all_digits_cons (c : ascii) (s : string) :
  all_digits (String c s) = is_digit c && all_digits s.
Proof. reflexivity. Qed.

Lemma string_of_uint_digits (u : Decimal.uint) :
  all_digits (NilEmpty.string_of_uint u) = true.
Proof. induction u; simpl; try rewrite all_digits_cons; auto. Qed.

Lemma digits_string_of_uint (u : Decimal.uint) (a : Z) :
  digits (NilEmpty.string_of_uint u) (Some a) = Some (uintValue u a).
Proof.
  revert a. induction u; intros a; simpl; try reflexivity;
    unfold digit_of; simpl; rewrite IHu; do 2 f_equal; lia.
Qed.

Lemma digits_string_of_uint_none (u : Decimal.uint) :
  u <> Decimal.Nil ->
  digits (NilEmpty.string_of_uint u) None = Some (uintValue u 0).
Proof.
  destruct u; intros H; [congruence| ..]; simpl; unfold digit_of; simpl;
    rewrite digits_string_of_uint; reflexivity.
Qed.

Lemma uintValue_of_uint_acc (u : Decimal.uint) :
  forall p, uintValue u (Z.pos p) = Z.pos (Pos.of_uint_acc u p).
Proof.
  induction u; intros p; simpl; try reflexivity;
    rewrite <- IHu; f_equal; lia.
Qed.

Lemma uintValue_of_uint (u : Decimal.uint) :
  uintValue u 0 = Z.of_N (Pos.of_uint u).
Proof.
  induction u; simpl; try reflexivity; try exact IHu;
    change (10 * 0 + ?k) with k; apply uintValue_of_uint_acc.
Qed.

Lemma uintValue_to_uint (p : positive) :
  uintValue (Pos.to_uint p) 0 = Z.pos p.
Proof.
  rewrite uintValue_of_uint, DecimalPos.Unsigned.of_to. reflexivity.
Qed.

Lemma toString_pos (p : positive) :
  toString (Z.pos p) = NilEmpty.string_of_uint (Pos.to_uint p).
Proof.
  unfold toString. simpl. unfold NilZero.string_of_uint.
  pose proof (DecimalPos.Unsigned.to_uint_nonnil p).
  destruct (Pos.to_uint p); [congruence|reflexivity..].
Qed.

Lemma toString_neg (p : positive) :
  toString (Z.neg p) = String "-" (NilEmpty.string_of_uint (Pos.to_uint p)).
Proof.
  unfold toString. simpl. unfold NilZero.string_of_uint.
  pose proof (DecimalPos.Unsigned.to_uint_nonnil p).
  destruct (Pos.to_uint p); [congruence|reflexivity..].
Qed.

(** A text without white space is its own [trim]. *)
Lemma trimEnd_no_ws (s : string) :
  forallb (fun c => negb (is_ws c)) (list_ascii_of_string s) = true ->
  trimEnd s = s.
Proof.
  induction s as [|c s IH]; simpl; [reflexivity|]. intros H.
  apply andb_prop in H as [Hc Hs]. rewrite (IH Hs).
  destruct s; [|reflexivity].
  apply negb_true_iff in Hc. now rewrite Hc.
Qed.

Lemma trim_no_ws (s : string) :
  forallb (fun c => negb (is_ws c)) (list_ascii_of_string s) = true ->
  trim s = s.
Proof.
  intros H. unfold trim.
  assert (Hs : trimStart s = s).
  { destruct s as [|c s]; [reflexivity|]. simpl in *.
    apply andb_prop in H as [Hc _]. apply negb_true_iff in Hc.
    now rewrite Hc. }
  rewrite Hs. now apply trimEnd_no_ws.
Qed.

Lemma all_digits_no_ws (s : string) :
  all_digits s = true ->
  forallb (fun c => negb (is_ws c)) (list_ascii_of_string s) = true.
Proof.
  induction s as [|c s IH]; [reflexivity|]. rewrite all_digits_cons.
  intros H. apply andb_prop in H as [Hc Hs]. simpl.
  rewrite (is_digit_not_ws c Hc), (IH Hs). reflexivity.
Qed.

Lemma all_digits_contains (c : ascii) (s : string) :
  is_digit c = false -> all_digits s = true -> contains c s = false.
Proof.
  intros Hc. induction s as [|a s IH]; [reflexivity|].
  rewrite all_digits_cons. intros H. apply andb_prop in H as [Ha Hs].
  simpl. rewrite (IH Hs), orb_false_r.
  destruct (Ascii.eqb_spec a c) as [->|]; [congruence|reflexivity].
Qed.

(** The decimal text of an integer is [-] and digits, or digits. *)
Lemma toString_shape (z : Z) :
  exists u,
    u <> Decimal.Nil
    /\ uintValue u 0 = Z.abs z
    /\ toString z =
       (if z <? 0 then String "-" (NilEmpty.string_of_uint u)
        else NilEmpty.string_of_uint u).
Proof.
  destruct z as [|p|p].
  - exists (Decimal.D0 Decimal.Nil). repeat split. discriminate.
  - exists (Pos.to_uint p). split; [apply DecimalPos.Unsigned.to_uint_nonnil|].
    split; [apply uintValue_to_uint|apply toString_pos].
  - exists (Pos.to_uint p). split; [apply DecimalPos.Unsigned.to_uint_nonnil|].
    split; [apply uintValue_to_uint|apply toString_neg].
Qed.

Lemma string_of_uint_head (u : Decimal.uint) :
  u <> Decimal.Nil ->
  exists c r,
    NilEmpty.string_of_uint u = String c r /\ is_digit c = true.
Proof.
  destruct u; intros H; [congruence| ..]; simpl; eauto.
Qed.

(** [Number] reads the decimal text of an integer back as the integer. *)
Lemma toNumber_toString (z : Z) :
  toNumber (Some (toString z)) = Some (Num z).
Proof.
  destruct (toString_shape z) as (u & Hu & Hv & Hs).
  pose proof (string_of_uint_digits u) as Hd.
  destruct (string_of_uint_head u Hu) as (c & r & Hcr & Hc).
  unfold toNumber. rewrite Hs.
  destruct (Z.ltb_spec z 0) as [Hneg|Hpos].
  - rewrite trim_no_ws
      by (simpl; rewrite (all_digits_no_ws _ Hd); reflexivity).
    rewrite Hcr in *. rewrite Hd.
    rewrite <- Hcr, (digits_string_of_uint_none u Hu), Hv.
    simpl default. do 2 f_equal. lia.
  - rewrite trim_no_ws by (now apply all_digits_no_ws).
    rewrite Hcr in *.
    assert (Hm : c <> "-"%char /\ c <> "+"%char)
      by (split; intros ->; discriminate Hc).
    destruct Hm as [Hm Hp].
    assert (Hbody :
      match String c r with
      | String "-" r0 => r0
      | String "+" r0 => r0
      | _ => String c r
      end = String c r).
    { destruct c as [[] [] [] [] [] [] [] []]; try reflexivity;
        congruence. }
    assert (Hsign :
      match String c r with String "-" _ => -1 | _ => 1 end = 1).
    { destruct c as [[] [] [] [] [] [] [] []]; try reflexivity;
        congruence. }
    rewrite Hbody, Hsign, Hd.
    rewrite <- Hcr, (digits_string_of_uint_none u Hu), Hv.
    simpl default. do 2 f_equal. lia.
Qed.

(** ** Export and import *)

Lemma contains_append (c : ascii) (a b : string) :
  contains c (a +:+ b) = contains c a || contains c b.
Proof.
  induction a as [|x a IH]; simpl; [reflexivity|].
  now rewrite IH, orb_assoc.
Qed.

Lemma truthy_append (a b : string) :
  truthy a = true -> truthy (a +:+ b) = true.
Proof. destruct a; [discriminate|reflexivity]. Qed.

Lemma split_concat (sep : ascii) (x : string) (ls : list string) :
  Forall (fun l => contains sep l = false) (x :: ls) ->
  split sep (String.concat (String sep "") (x :: ls)) = x :: ls.
Proof.
  revert x. induction ls as [|y ls IH]; intros x H.
  - simpl. apply split_no_sep. now inversion H.
  - inversion H as [|? ? Hx Hrest]; subst.
    change (String.concat (String sep "") (x :: y :: ls))
      with (x +:+ String sep (String.concat (String sep "") (y :: ls))).
    rewrite (split_first _ _ _ Hx), (IH y Hrest). reflexivity.
Qed.

Lemma toString_contains (c : ascii) (z : Z) :
  is_digit c = false -> c <> "-"%char -> contains c (toString z) = false.
Proof.
  intros Hc Hm. destruct (toString_shape z) as (u & _ & _ & Hs).
  rewrite Hs. pose proof (string_of_uint_digits u) as Hd.
  destruct (z <? 0); [|exact (all_digits_contains c _ Hc Hd)].
  change (contains c (String "-" (NilEmpty.string_of_uint u)))
    with (Ascii.eqb "-" c || contains c (NilEmpty.string_of_uint u)).
  rewrite (all_digits_contains c _ Hc Hd), orb_false_r.
  apply Ascii.eqb_neq. congruence.
Qed.

Lemma csvField_spec (s : string) :
  csvField s = true ->
  truthy s = true /\ contains "," s = false /\ contains "010" s = false.
Proof.
  unfold csvField. intros H. apply andb_prop in H as [H H3].
  apply andb_prop in H as [H1 H2].
  apply negb_true_iff in H2. apply negb_true_iff in H3. auto.
Qed.

Lemma csvRow_fields (date : string) (t : Task) :
  csvTask date t ->
  split "," (csvRow date t) =
  [date; name t; startTime t; endTime t; toString (durationMinutes t);
   if done t then "1" else "0"].
Proof.
  intros (Hd & Hn & Hs & He & _).
  apply csvField_spec in Hd as (_ & Hd & _).
  apply csvField_spec in Hn as (_ & Hn & _).
  apply csvField_spec in Hs as (_ & Hs & _).
  apply csvField_spec in He as (_ & He & _).
  unfold csvRow. apply split_concat.
  repeat constructor; try assumption.
  - apply toString_contains; [reflexivity|discriminate].
  - destruct (done t); reflexivity.
Qed.

Lemma csvRow_line (date : string) (t : Task) :
  csvTask date t ->
  truthy (csvRow date t) = true /\ contains "010" (csvRow date t) = false.
Proof.
  intros (Hd & Hn & Hs & He & _).
  apply csvField_spec in Hd as (Hd1 & _ & Hd).
  apply csvField_spec in Hn as (_ & _ & Hn).
  apply csvField_spec in Hs as (_ & _ & Hs).
  apply csvField_spec in He as (_ & _ & He).
  unfold csvRow.
  change (String.concat "," [date; name t; startTime t; endTime t;
                             toString (durationMinutes t);
                             if done t then "1" else "0"])
    with (date +:+ String "," (name t +:+ String "," (startTime t +:+
          String "," (endTime t +:+ String "," (toString (durationMinutes t)
          +:+ String "," (if done t then "1" else "0")))))).
  split; [now apply truthy_append|].
  repeat (rewrite contains_append; simpl contains).
  rewrite Hd, Hn, Hs, He.
  rewrite (toString_contains "010" (durationMinutes t)) by
    (first [reflexivity|discriminate]).
  destruct (done t); reflexivity.
Qed.

(** The task that the import makes of the row of a task. *)
Lemma importRow_csvRow (fresh : nat -> string) (i : nat) (date : string)
    (t : Task) (out : gmap string (list Task)) :
  csvTask date t ->
  importRow fresh i (csvRow date t) out =
  Some (<[date :=
            (tasksForDate out date ++
             [mkTask (fresh i) (name t) (durationMinutes t) (startTime t)
                     (endTime t) (done t)])%list]> out).
Proof.
  intros Hc. unfold importRow. rewrite (csvRow_fields date t Hc).
  destruct Hc as (Hd & Hn & Hs & He & _).
  apply csvField_spec in Hd as (Hd & _ & _).
  apply csvField_spec in Hn as (Hn & _ & _).
  apply csvField_spec in Hs as (Hs & _ & _).
  apply csvField_spec in He as (He & _ & _).
  simpl lookup. cbv zeta. cbv iota. cbv beta. rewrite Hd. simpl negb.
  cbv iota. rewrite toNumber_toString. unfold or_default. rewrite Hn, Hs, He.
  do 4 f_equal. destruct (done t); reflexivity.
Qed.

Lemma importRows_app (fresh : nat -> string) (a b : list string) :
  forall (i : nat) (out : gmap string (list Task)),
    importRows fresh i (a ++ b) out =
    match importRows fresh i a out with
    | Some mid => importRows fresh (i + length a) b mid
    | None => None
    end.
Proof.
  induction a as [|line a IH]; intros i out; simpl.
  - now rewrite Nat.add_0_r.
  - destruct (importRow fresh i line out) as [mid|]; [|reflexivity].
    rewrite IH. now rewrite Nat.add_succ_comm.
Qed.

(** The rows of the tasks of one date, imported one after the other. *)
Lemma importRows_date (fresh : nat -> string) (date : string)
    (l : list Task) :
  (forall t, In t l -> csvTask date t) ->
  forall (i : nat) (out : gmap string (list Task)),
    exists out' L,
      importRows fresh i (map (csvRow date) l) out = Some out'
      /\ Forall2 sameButId L l
      /\ tasksForDate out' date = (tasksForDate out date ++ L)%list
      /\ forall date', date' <> date ->
           tasksForDate out' date' = tasksForDate out date'.
Proof.
  induction l as [|t l IH]; intros Hl i out.
  - exists out, []. simpl. rewrite app_nil_r.
    split; [reflexivity|]. split; [constructor|]. split; reflexivity.
  - simpl. rewrite (importRow_csvRow fresh i date t out)
      by (apply Hl; now left).
    destruct (IH (fun x Hx => Hl x (or_intror Hx)) (S i)
                (<[date := (tasksForDate out date ++
                            [mkTask (fresh i) (name t) (durationMinutes t)
                               (startTime t) (endTime t) (done t)])%list]> out))
      as (out' & L & Hrun & HL & Hsame & Hother).
    exists out', (mkTask (fresh i) (name t) (durationMinutes t)
                   (startTime t) (endTime t) (done t) :: L).
    split; [exact Hrun|]. split.
    { constructor; [repeat split|exact HL]. }
    split.
    { rewrite Hsame. unfold tasksForDate at 1. rewrite lookup_insert_eq.
      simpl default. now rewrite <- app_assoc. }
    intros date' Hne. rewrite (Hother date' Hne). unfold tasksForDate.
    rewrite lookup_insert_ne by congruence. reflexivity.
Qed.

(** The rows of the dates of [keys], no date twice. *)
Lemma importRows_keys (fresh : nat -> string) (d : gmap string (list Task))
    (keys : list string) :
  NoDup keys ->
  (forall date t, date ∈ keys -> In t (tasksForDate d date) ->
     csvTask date t) ->
  forall (i : nat) (out : gmap string (list Task)),
    exists out',
      importRows fresh i
        (flat_map (fun date => map (csvRow date) (tasksForDate d date)) keys)
        out = Some out'
      /\ (forall date, date ∈ keys ->
            exists L,
              tasksForDate out' date = (tasksForDate out date ++ L)%list
              /\ Forall2 sameButId L (tasksForDate d date))
      /\ forall date, date ∉ keys ->
           tasksForDate out' date = tasksForDate out date.
Proof.
  induction keys as [|k keys IH]; intros Hnd Hsafe i out.
  - exists out. simpl. split; [reflexivity|]. split; [|reflexivity].
    intros date Hin. inversion Hin.
  - apply NoDup_cons in Hnd as [Hk Hnd]. simpl.
    destruct (importRows_date fresh k (tasksForDate d k)
                (fun t Ht => Hsafe k t ltac:(left) Ht) i out)
      as (mid & L & Hrun & HL & Hsame & Hother).
    rewrite importRows_app, Hrun.
    destruct (IH Hnd (fun date t Hd Ht => Hsafe date t ltac:(now right) Ht)
                (i + length (map (csvRow k) (tasksForDate d k)))%nat mid)
      as (out' & Hrun' & Hin' & Hout').
    exists out'. split; [exact Hrun'|]. split.
    + intros date Hd. apply elem_of_cons in Hd as [->|Hd].
      * exists L. rewrite (Hout' k Hk). split; [exact Hsame|exact HL].
      * destruct (Hin' date Hd) as (L' & HL1 & HL2). exists L'.
        rewrite HL1, (Hother date) by (intros ->; contradiction).
        split; [reflexivity|exact HL2].
    + intros date Hd. apply not_elem_of_cons in Hd as [Hne Hd].
      rewrite (Hout' date Hd). now apply Hother.
Qed.

Lemma map_is_fmap (A B : Type) (f : A -> B) (l : list A) :
  map f l = f <$> l.
Proof. induction l as [|a l IH]; simpl; [reflexivity|now rewrite IH]. Qed.

Lemma sortedKeys_spec (d : gmap string (list Task)) :
  NoDup (sortedKeys d)
  /\ forall date, date ∈ sortedKeys d <-> is_Some (d !! date).
Proof.
  unfold sortedKeys. rewrite map_is_fmap. split.
  - rewrite merge_sort_Permutation. apply NoDup_fst_map_to_list.
  - intros date. rewrite merge_sort_Permutation.
    rewrite list_elem_of_fmap. split.
    + intros ([k l] & -> & Hin). apply elem_of_map_to_list in Hin. eauto.
    + intros [l Hl]. exists (date, l). split; [reflexivity|].
      now apply elem_of_map_to_list.
Qed.

(** X20: what [exportCSV] writes, [importCSV] reads back.  If the date, the
    name and the two times of every task are not empty and hold neither a
    comma nor a line feed, importing the exported text into an empty store
    completes and gives, for every date, the tasks of that date in the same
    order with the same name, start, end, duration and done flag (only the
    identifiers are new). *)
Theorem export_import_round_trip (fresh : nat -> string)
    (d : gmap string (list Task)) :
  (forall date l t, d !! date = Some l -> In t l -> csvTask date t) ->
  exists d',
    importCSV fresh (exportCSV d) ∅ = Some d'
    /\ forall date,
         Forall2 sameButId (tasksForDate d' date) (tasksForDate d date).
Proof.
  intros Hsafe.
  destruct (sortedKeys_spec d) as [Hnd Hkeys].
  assert (Hsafe' : forall date t, date ∈ sortedKeys d ->
            In t (tasksForDate d date) -> csvTask date t).
  { intros date t _ Ht. unfold tasksForDate in Ht.
    destruct (d !! date) as [l|] eqn:Hl; simpl in Ht; [|contradiction].
    exact (Hsafe date l t Hl Ht). }
  set (rows := flat_map (fun date => map (csvRow date) (tasksForDate d date))
                        (sortedKeys d)).
  assert (Hrows : forall line, In line rows ->
            truthy line = true /\ contains "010" line = false).
  { intros line Hin. unfold rows in Hin.
    apply in_flat_map in Hin as (date & Hd & Hin).
    apply in_map_iff in Hin as (t & <- & Ht).
    apply csvRow_line. apply (Hsafe' date t); [|exact Ht].
    now apply list_elem_of_In. }
  assert (Hsplit : split "010" (exportCSV d) = csvHeader :: rows).
  { unfold exportCSV. fold rows. apply split_concat.
    constructor; [reflexivity|].
    apply Forall_forall. intros line Hin.
    apply list_elem_of_In in Hin. now apply Hrows. }
  unfold importCSV. cbv zeta. rewrite Hsplit.
  assert (Hfilter : List.filter truthy (csvHeader :: rows) = csvHeader :: rows).
  { apply filter_all. intros line [<-|Hin]; [reflexivity|now apply Hrows]. }
  rewrite Hfilter.
  change (String.prefix "date," csvHeader) with true. cbv iota.
  change (drop 1 (csvHeader :: rows)) with rows.
  destruct (importRows_keys fresh d (sortedKeys d) Hnd Hsafe' 1%nat ∅)
    as (d' & Hrun & Hin & Hout).
  exists d'. split; [exact Hrun|].
  intros date. destruct (decide (date ∈ sortedKeys d)) as [Hd|Hd].
  - destruct (Hin date Hd) as (L & HL1 & HL2). rewrite HL1. exact HL2.
  - rewrite (Hout date Hd).
    assert (Hnone : d !! date = None).
    { destruct (d !! date) eqn:Hl; [|reflexivity].
      exfalso. apply Hd, Hkeys. eauto. }
    unfold tasksForDate. rewrite Hnone, lookup_empty. constructor.
Qed.

Lemma export_import_round_trip_witness :
  exists d',
    importCSV (fun _ => "i")
      (exportCSV
         {[ "2025-01-01" := [mkTask "t1" "Read" 30 "09:00" "09:30" true] ]})
      ∅ = Some d'
    /\ Forall2 sameButId (tasksForDate d' "2025-01-01")
         (tasksForDate
            {[ "2025-01-01" := [mkTask "t1" "Read" 30 "09:00" "09:30" true] ]}
            "2025-01-01").
Proof.
  pose (t := mkTask "t1" "Read" 30 "09:00" "09:30" true).
  pose (d := ({[ "2025-01-01" := [t] ]} : gmap string (list Task))).
  assert (Hsafe : forall date l x, d !! date = Some l -> In x l ->
            csvTask date x).
  { intros date l x Hl Hx.
    destruct (decide (date = "2025-01-01")) as [->|Hne].
    - assert (l = [t]) as ->
        by (unfold d in Hl; rewrite lookup_singleton_eq in Hl; congruence).
      destruct Hx as [<-|[]].
      repeat split; first [reflexivity|simpl; lia].
    - unfold d in Hl. rewrite lookup_singleton_ne in Hl by congruence.
      discriminate Hl. }
  destruct (export_import_round_trip (fun _ => "i") d Hsafe) as (d' & H1 & H2).
  exists d'. split; [exact H1|exact (H2 "2025-01-01")].
Defined.

(** ** Readable durations *)

Lemma digits_string_of_uint_app (u : Decimal.uint) (rest : string) (a : Z) :
  digits (NilEmpty.string_of_uint u +:+ rest) (Some a) =
  digits rest (Some (uintValue u a)).
Proof.
  revert a. induction u; intros a; simpl; try reflexivity;
    unfold digit_of; simpl; rewrite IHu; do 3 f_equal; lia.
Qed.

Lemma digits_string_of_uint_app_none (u : Decimal.uint) (rest : string) :
  u <> Decimal.Nil ->
  digits (NilEmpty.string_of_uint u +:+ rest) None =
  digits rest (Some (uintValue u 0)).
Proof.
  destruct u; intros H; [congruence| ..]; simpl; unfold digit_of; simpl;
    rewrite digits_string_of_uint_app; reflexivity.
Qed.

Lemma digits_stop (c : ascii) (r : string) (acc : option Z) :
  is_digit c = false -> digits (String c r) acc = acc.
Proof.
  unfold is_digit. intros H. simpl.
  destruct (digit_of c); [discriminate H|reflexivity].
Qed.

Lemma parseInt_digit_head (c : ascii) (r : string) :
  is_digit c = true ->
  parseInt (String c r) =
  match digits (String c r) None with
  | Some n => Num (1 * n)
  | None => NaN
  end.
Proof.
  intros Hc. unfold parseInt. simpl trimStart.
  rewrite (is_digit_not_ws c Hc).
  destruct c as [[] [] [] [] [] [] [] []]; first [reflexivity|discriminate Hc].
Qed.

Lemma lastChar_snoc (s : string) (c : ascii) :
  lastChar (s +:+ String c "") = Some c.
Proof.
  induction s as [|a s IH]; [reflexivity|]. simpl.
  destruct (s +:+ String c "") eqn:E; [destruct s; discriminate E|exact IH].
Qed.

(** [parseInt] reads the integer in front of a unit letter. *)
Lemma parseInt_toString_unit (z : Z) (c : ascii) :
  0 <= z -> is_digit c = false ->
  parseInt (toString z +:+ String c "") = Num z.
Proof.
  intros Hz Hc. destruct (toString_shape z) as (u & Hu & Hv & Hs).
  destruct (Z.ltb_spec z 0); [lia|]. rewrite Hs.
  destruct (string_of_uint_head u Hu) as (d & r & Hcr & Hd).
  rewrite Hcr.
  change (String d r +:+ String c "") with (String d (r +:+ String c "")).
  rewrite (parseInt_digit_head d _ Hd).
  change (String d (r +:+ String c "")) with (String d r +:+ String c "").
  rewrite <- Hcr, (digits_string_of_uint_app_none u _ Hu).
  rewrite (digits_stop c "" _ Hc), Hv. f_equal. lia.
Qed.

Lemma readablePart_unit (z : Z) (c : ascii) :
  0 <= z -> is_digit c = false ->
  readablePart (toString z +:+ String c "") =
  if Ascii.eqb c "h" then 60 * z else z.
Proof.
  intros Hz Hc. unfold readablePart.
  now rewrite (parseInt_toString_unit z c Hz Hc), lastChar_snoc.
Qed.

Lemma toString_unit_no_space (z : Z) (c : ascii) :
  0 <= z -> c <> " "%char ->
  contains " " (toString z +:+ String c "") = false.
Proof.
  intros Hz Hc. rewrite contains_append.
  rewrite (toString_contains " " z) by (first [reflexivity|discriminate]).
  simpl. rewrite orb_false_r. now apply Ascii.eqb_neq.
Qed.

(** The reading gives back the minutes. *)
Lemma readableMinutes_minutesToReadable (mins : Z) :
  0 <= mins -> readableMinutes (minutesToReadable mins) = mins.
Proof.
  intros Hm. unfold minutesToReadable. cbv zeta.
  rewrite Z.rem_mod_nonneg by lia.
  pose proof (Z.div_mod mins 60 ltac:(lia)) as Hdm.
  pose proof (Z.mod_pos_bound mins 60 ltac:(lia)) as Hb.
  pose proof (Z.div_pos mins 60 Hm ltac:(lia)) as Hh.
  set (h := mins / 60) in *. set (m := mins mod 60) in *.
  assert (Hpart_h : readablePart (toString h +:+ "h") = 60 * h)
    by (apply (readablePart_unit h "h" Hh); reflexivity).
  assert (Hpart_m : readablePart (toString m +:+ "m") = m)
    by (apply (readablePart_unit m "m"); [lia|reflexivity]).
  assert (Hsp_h : contains " " (toString h +:+ "h") = false)
    by (apply toString_unit_no_space; [exact Hh|discriminate]).
  assert (Hsp_m : contains " " (toString m +:+ "m") = false)
    by (apply toString_unit_no_space; [lia|discriminate]).
  destruct (Z.eqb_spec h 0) as [Hh0|Hh0];
    destruct (Z.eqb_spec m 0) as [Hm0|Hm0]; simpl app; cbv iota.
  - vm_compute. lia.
  - unfold readableMinutes. simpl String.concat.
    rewrite (split_no_sep _ _ Hsp_m). simpl. rewrite Hpart_m. lia.
  - unfold readableMinutes. simpl String.concat.
    rewrite (split_no_sep _ _ Hsp_h). simpl. rewrite Hpart_h. lia.
  - unfold readableMinutes.
    change (String.concat " " [toString h +:+ "h"; toString m +:+ "m"])
      with ((toString h +:+ "h") +:+ String " " (toString m +:+ "m")).
    rewrite (split_first _ _ _ Hsp_h), (split_no_sep _ _ Hsp_m).
    simpl. rewrite Hpart_h, Hpart_m. lia.
Qed.

(** X21: [minutesToReadable] shows different durations differently: two
    non-negative numbers of minutes with the same text are equal; and the
    text is ["0m"] for 0 only. *)
Theorem minutesToReadable_injective (a b : Z) :
  0 <= a -> 0 <= b ->
  (minutesToReadable a = minutesToReadable b -> a = b)
  /\ (minutesToReadable a = "0m" <-> a = 0).
Proof.
  intros Ha Hb.
  assert (Hinj : forall x y, 0 <= x -> 0 <= y ->
            minutesToReadable x = minutesToReadable y -> x = y).
  { intros x y Hx Hy H.
    rewrite <- (readableMinutes_minutesToReadable x Hx),
            <- (readableMinutes_minutesToReadable y Hy).
    now rewrite H. }
  split; [now apply Hinj|].
  split.
  - intros H. apply (Hinj a 0 Ha ltac:(lia)). exact H.
  - intros ->. reflexivity.
Qed.

Lemma minutesToReadable_injective_witness :
  minutesToReadable 90 = "0m" <-> 90 = 0.
Proof.
  exact (proj2 (minutesToReadable_injective 90 0 ltac:(lia) ltac:(lia))).
Defined.

Lemma uniqueNames_sorted_distinct_witness :
  In "Read"
     (uniqueNames
        {[ "2025-01-01" := [mkTask "t1" "Read" 30 "09:00" "09:30" false] ]}).
Proof.
  pose (t := mkTask "t1" "Read" 30 "09:00" "09:30" false).
  pose (d := ({[ "2025-01-01" := [t] ]} : gmap string (list Task))).
  destruct (uniqueNames_sorted_distinct d) as (_ & _ & H).
  apply (H "Read"). exists "2025-01-01", [t], t.
  split; [reflexivity|]. split; [now left|reflexivity].
Defined.
